(** * The cloud tutorial notebooks, as programs over an external world

    The repository is a set of Jupyter notebooks: the [gcloud]
    walkthrough, [Storage.ipynb] and [New York Times API.ipynb] (the
    TensorFlow notebook only shows a library).  A code cell is glue around
    calls of external tools and libraries: shell lines started with [!],
    [requests.get], [json.loads], BeautifulSoup, [open],
    [random.getrandbits], [os.listdir].  A cell is embedded here as a tree
    of such calls ([cellM]): every call is a node, what the world answers
    selects the continuation, and what Python itself does in between
    (string concatenation, subscripts, comprehensions, [in], [if]) is a
    Rocq function.  A cell takes as arguments the variables that earlier
    cells bound and gives back the ones it binds.  Running a tree against a
    world gives the calls that were issued, the value or exception of the
    cell, and the world afterwards.

    - [Py]: the values [json.loads] builds, subscripts, iteration, [str].
    - [event], [cellM], [run]: calls, cells and their runs.
    - [IPython]: the [!] lines and the shell operators the notebooks use.
    - [GCloud], [Storage], [NYT]: the cells of the three notebooks.
    - [Pandas]: frames built from a list of dicts, [df[label]], [unique]. *)

From Stdlib Require Import ZArith List String Ascii Bool Lia.
From Stdlib Require Import Decimal DecimalString DecimalZ.
Import ListNotations.

Open Scope string_scope.
Open Scope Z_scope.

Set Implicit Arguments.
Set Warnings "-register-all".

(** ** Python values and exceptions *)

Module Py.

(** An exception is its class and its argument, as [repr] shows them. *)
Record exn : Type := Exn { exn_class : string; exn_arg : string }.

Definition KeyError (k : string) : exn := Exn "KeyError" k.
Definition IndexError (msg : string) : exn := Exn "IndexError" msg.
Definition TypeError (msg : string) : exn := Exn "TypeError" msg.
Definition AttributeError (msg : string) : exn := Exn "AttributeError" msg.

(** What an expression gives: a value, or the exception it raises. *)
Inductive result (A : Type) : Type :=
| Ok (a : A)
| Err (e : exn).
Arguments Ok {A} a.
Arguments Err {A} e.

(** What [json.loads] builds.  A [dict] keeps its keys in insertion order;
    looking a key up finds its first binding.  A float is its 64 bits. *)
Inductive pyval : Type :=
| PNone
| PBool (b : bool)
| PInt (n : Z)
| PFloat (bits : Z)
| PStr (s : string)
| PList (items : list pyval)
| PDict (fields : list (string * pyval)).

Fixpoint lookup (k : string) (fields : list (string * pyval)) : option pyval :=
  match fields with
  | [] => None
  | (k', v) :: rest => if String.eqb k k' then Some v else lookup k rest
  end.

(** [str(n)] on an [int]. *)
Definition str (n : Z) : string := NilZero.string_of_int (Z.to_int n).

(** [int(s)] on a decimal literal; [None] where Python raises [ValueError]. *)
Definition int (s : string) : option Z :=
  option_map Z.of_int (NilZero.int_of_string s).

(** [v[k]] with a [str] key. *)
Definition getitem (v : pyval) (k : string) : result pyval :=
  match v with
  | PDict fields =>
      match lookup k fields with
      | Some x => Ok x
      | None => Err (KeyError k)
      end
  | PList _ => Err (TypeError "list indices must be integers or slices, not str")
  | PStr _ => Err (TypeError "string indices must be integers")
  | _ => Err (TypeError "object is not subscriptable")
  end.

(** [v[i]] with an [int] index: a negative index counts from the end. *)
Definition getindex (v : pyval) (i : Z) : result pyval :=
  match v with
  | PList items =>
      let n := Z.of_nat (List.length items) in
      let j := if i <? 0 then i + n else i in
      if (0 <=? j) && (j <? n)
      then match nth_error items (Z.to_nat j) with
           | Some x => Ok x
           | None => Err (IndexError "list index out of range")
           end
      else Err (IndexError "list index out of range")
  | PStr s =>
      let n := Z.of_nat (String.length s) in
      let j := if i <? 0 then i + n else i in
      if (0 <=? j) && (j <? n)
      then match String.get (Z.to_nat j) s with
           | Some c => Ok (PStr (String c EmptyString))
           | None => Err (IndexError "string index out of range")
           end
      else Err (IndexError "string index out of range")
  | PDict _ => Err (KeyError (str i))
  | _ => Err (TypeError "object is not subscriptable")
  end.

Fixpoint chars (s : string) : list pyval :=
  match s with
  | EmptyString => []
  | String c rest => PStr (String c EmptyString) :: chars rest
  end.

(** The elements a [for] clause draws from [v]: the items of a list, the
    keys of a dict, the characters of a string. *)
Definition iter (v : pyval) : result (list pyval) :=
  match v with
  | PList items => Ok items
  | PDict fields => Ok (map (fun kv => PStr (fst kv)) fields)
  | PStr s => Ok (chars s)
  | _ => Err (TypeError "object is not iterable")
  end.

(** [s.endswith(suffix)]. *)
Definition endswith (s suffix : string) : bool :=
  let n := String.length s in
  let m := String.length suffix in
  (m <=? n)%nat && String.eqb (substring (n - m) m s) suffix.

(** [sep.join(lines)]. *)
Definition join (sep : string) (lines : list string) : string :=
  String.concat sep lines.

End Py.

Import Py.

(** ** Calls of the outside world *)

(** A [requests.Response], as far as the notebook reads it. *)
Record response : Type := Response { status_code : Z; content : string }.

(** A BeautifulSoup document and a tag of it are handles of the library. *)
Definition soup : Type := nat.
Definition tag : Type := nat.

Inductive event : Type :=
| Exec (argv : string)                 (* a command the shell starts *)
| PyPrint (v : pyval)                  (* [print(v)] *)
| GetRandBits (k : Z)                  (* [random.getrandbits(k)] *)
| ListDir (path : string)              (* [os.listdir(path)] *)
| FileOpen (name mode : string)        (* [open(name, mode)] *)
| FileWrite (fd : Z) (text : string)   (* [f.write(text)] *)
| FileClose (fd : Z)                   (* leaving the [with] block *)
| HttpGet (url : pyval) (kwargs : list (string * pyval))
                                       (* [requests.get(url, **kwargs)] *)
| JsonLoads (text : string)            (* [json.loads(text)] *)
| SoupParse (markup : string)          (* [BeautifulSoup(markup)] *)
| SoupPrettify (doc : soup)            (* [doc.prettify()] *)
| SoupFind (doc : soup) (name : string) (attrs : list (string * string))
                                       (* [doc.find(name, attrs=attrs)] *)
| TagGetText (t : tag).                (* [t.get_text()] *)

(** What the world hands back.  A command gives its exit status and the
    lines it printed; it never raises.  A library call gives a value or
    raises. *)
Definition answer (ev : event) : Type :=
  match ev with
  | Exec _ => (Z * list string)%type
  | PyPrint _ => unit
  | GetRandBits _ => Z
  | ListDir _ => result (list string)
  | FileOpen _ _ => result Z
  | FileWrite _ _ => result Z
  | FileClose _ => result unit
  | HttpGet _ _ => result response
  | JsonLoads _ => result pyval
  | SoupParse _ => result soup
  | SoupPrettify _ => result string
  | SoupFind _ _ _ => result (option tag)
  | TagGetText _ => result string
  end.

Definition raised_in {A : Type} (r : result A) : option exn :=
  match r with
  | Ok _ => None
  | Err e => Some e
  end.

(** The exception a call answered with, if it did. *)
Definition raised (ev : event) : answer ev -> option exn :=
  match ev with
  | Exec _ => fun _ => None
  | PyPrint _ => fun _ => None
  | GetRandBits _ => fun _ => None
  | ListDir _ => @raised_in _
  | FileOpen _ _ => @raised_in _
  | FileWrite _ _ => @raised_in _
  | FileClose _ => @raised_in _
  | HttpGet _ _ => @raised_in _
  | JsonLoads _ => @raised_in _
  | SoupParse _ => @raised_in _
  | SoupPrettify _ => @raised_in _
  | SoupFind _ _ _ => @raised_in _
  | TagGetText _ => @raised_in _
  end.

(** ** Cells *)

(** The code of a cell: it ends with a value, or with an exception nobody
    caught, or it calls the world and goes on with the answer. *)
Inductive cellM (A : Type) : Type :=
| Ret (a : A)
| Raise (e : exn)
| Vis (ev : event) (k : answer ev -> cellM A).
Arguments Ret {A} a.
Arguments Raise {A} e.
Arguments Vis {A} ev k.

Fixpoint bind {A B : Type} (c : cellM A) (f : A -> cellM B) : cellM B :=
  match c with
  | Ret a => f a
  | Raise e => Raise e
  | Vis ev k => Vis ev (fun r => bind (k r) f)
  end.

Declare Scope cell_scope.
Delimit Scope cell_scope with cell.
Notation "x <- c ;; k" := (bind c (fun x => k))
  (at level 61, c at next level, right associativity) : cell_scope.
Notation "' p <- c ;; k" := (bind c (fun x => let p := x in k))
  (at level 61, p pattern, c at next level, right associativity) : cell_scope.
Notation "c ;; k" := (bind c (fun _ => k))
  (at level 61, right associativity) : cell_scope.
Open Scope cell_scope.

Definition call (ev : event) : cellM (answer ev) := Vis ev (fun r => Ret r).

(** A Python expression inside a cell: its exception leaves the cell. *)
Definition lift {A : Type} (r : result A) : cellM A :=
  match r with
  | Ok a => Ret a
  | Err e => Raise e
  end.

(** [[f(x) for x in xs]], left to right, stopping at the first exception. *)
Fixpoint for_each {A B : Type} (f : A -> cellM B) (xs : list A) : cellM (list B) :=
  match xs with
  | [] => Ret []
  | x :: rest => y <- f x ;; ys <- for_each f rest ;; Ret (y :: ys)
  end.

(** ** Running a cell *)

(** One entry of the log: the call, and the exception it answered with. *)
Definition io : Type := (event * option exn)%type.

Section Run.

Variable W : Type.
Variable handle : forall ev : event, W -> answer ev * W.

Fixpoint run {A : Type} (c : cellM A) (w : W) : list io * result A * W :=
  match c with
  | Ret a => ([], Ok a, w)
  | Raise e => ([], Err e, w)
  | Vis ev k =>
      let (r, w1) := handle ev w in
      let '(log, res, w2) := run (k r) w1 in
      ((ev, raised ev r) :: log, res, w2)
  end.

End Run.

Definition log_of {A W : Type} (x : list io * result A * W) : list io := fst (fst x).
Definition result_of {A W : Type} (x : list io * result A * W) : result A := snd (fst x).
Definition world_of {A W : Type} (x : list io * result A * W) : W := snd x.
Definition calls_of {A W : Type} (x : list io * result A * W) : list event :=
  map fst (log_of x).

(** A world given as a script: the answer to the [n]-th call of a run.
    Every deterministic world is one, so "for every script" is "in every
    environment". *)
Definition script : Type := nat -> forall ev : event, answer ev.

Definition play (o : script) (ev : event) (n : nat) : answer ev * nat :=
  (o n ev, S n).

Definition run_from {A : Type} (o : script) (n : nat) (c : cellM A) :=
  run (play o) c n.

Definition run_script {A : Type} (o : script) (c : cellM A) := run_from o 0 c.

(** ** The [!] lines of IPython *)

Module IPython.

(** A simple command of a shell line: the shell starts it, its output goes
    to the console, its exit status is the status of the command.  [argv]
    is the command line after the shell has removed the quotes. *)
Definition sh_cmd (argv : string) : cellM Z :=
  r <- call (Exec argv) ;; Ret (fst r).

(** [a || b]: [b] runs only when [a] ends with a status other than 0. *)
Definition sh_or (a b : cellM Z) : cellM Z :=
  st <- a ;; if st =? 0 then Ret st else b.

Definition is_blank (c : ascii) : bool :=
  match nat_of_ascii c with
  | 9%nat | 10%nat | 32%nat => true
  | _ => false
  end.

(** Word splitting of a substituted output. *)
Fixpoint split_words (s word : string) : list string :=
  match s with
  | EmptyString => if String.eqb word "" then [] else [word]
  | String c rest =>
      if is_blank c
      then (if String.eqb word "" then split_words rest ""
            else word :: split_words rest "")
      else split_words rest (word ++ String c "")
  end.

Definition words (lines : list string) : list string :=
  flat_map (fun l => split_words l "") lines.

(** A command substitution in command position: the output of [argv],
    split into words, is itself run as a command; with no word left the
    status is the one of [argv]. *)
Definition sh_backquote (argv : string) : cellM Z :=
  r <- call (Exec argv) ;;
  match words (snd r) with
  | [] => Ret (fst r)
  | ws => sh_cmd (join " " ws)
  end.

(** The test [[[ ! -z $(argv) ]]]: status 0 when [argv] printed something
    other than newlines. *)
Definition sh_test_nonempty (argv : string) : cellM Z :=
  r <- call (Exec argv) ;;
  Ret (if forallb (String.eqb "") (snd r) then 1 else 0).

(** [!line]: the exit status goes to [_exit_code]; nothing is raised. *)
Definition system (line : cellM Z) : cellM unit :=
  line ;; Ret tt.

(** [x = !argv]: the output lines, as a list of strings. *)
Definition getoutput (argv : string) : cellM (list string) :=
  r <- call (Exec argv) ;; Ret (snd r).

End IPython.

Import IPython.

(** A cell with the type of what it leaves in the namespace. *)
Record cell : Type := Cell { cell_ty : Type; cell_body : cellM cell_ty }.

(** ** The [gcloud] notebook *)

Module GCloud.

(** [!which gcloud || echo "Install GCloud.";] *)
Definition check_installed : cellM unit :=
  system (sh_or (sh_cmd "which gcloud") (sh_cmd "echo Install GCloud.")).

(** [!gcloud auth print-access-token || `gcloud auth login`;] *)
Definition check_authorized : cellM unit :=
  system (sh_or (sh_cmd "gcloud auth print-access-token")
                (sh_backquote "gcloud auth login")).

Definition gcloud_ : cellM unit := system (sh_cmd "gcloud").
Definition help_auth : cellM unit := system (sh_cmd "gcloud help auth").
Definition help_projects : cellM unit := system (sh_cmd "gcloud help projects").
Definition projects_list : cellM unit := system (sh_cmd "gcloud projects list").

(** [project_name = "amli-cloud-tutorial-" + str(random.getrandbits(32))] *)
Definition project_name : cellM string :=
  n <- call (GetRandBits 32) ;;
  Ret ("amli-cloud-tutorial-" ++ str n).

Definition projects_create (project_name : string) : cellM unit :=
  system (sh_cmd ("gcloud projects create " ++ project_name)).
Definition projects_describe (project_name : string) : cellM unit :=
  system (sh_cmd ("gcloud projects describe " ++ project_name)).
Definition projects_delete (project_name : string) : cellM unit :=
  system (sh_cmd ("gcloud projects delete -q " ++ project_name)).

Definition help_config : cellM unit := system (sh_cmd "gcloud help config").
Definition config_list : cellM unit := system (sh_cmd "gcloud config list").

(** [project_name = "amli-cloud-tutorial"] and
    [!gcloud config set project {project_name}] *)
Definition config_set_project : cellM string :=
  let project_name := "amli-cloud-tutorial" in
  system (sh_cmd ("gcloud config set project " ++ project_name)) ;;
  Ret project_name.

(** The cells after the two checks, in the order of the notebook;
    [pn] is what the [project_name] cell left. *)
Definition walkthrough (pn : string) : list cell :=
  [Cell gcloud_; Cell help_auth; Cell help_projects; Cell projects_list;
   Cell project_name; Cell (projects_create pn); Cell projects_list;
   Cell (projects_describe pn); Cell (projects_delete pn);
   Cell projects_list; Cell help_config; Cell config_list;
   Cell config_set_project; Cell config_list].

End GCloud.

(** ** [Storage.ipynb] *)

Module Storage.

(** [!which gcloud || echo "Install GCloud.";] *)
Definition check_installed : cellM unit :=
  system (sh_or (sh_cmd "which gcloud") (sh_cmd "echo Install GCloud.")).

(** [!gcloud auth print-access-token || `gcloud auth login`;] *)
Definition check_authorized : cellM unit :=
  system (sh_or (sh_cmd "gcloud auth print-access-token")
                (sh_backquote "gcloud auth login")).

(** [![[ ! -z $(gcloud config get-value project) ]] || echo "Select a project."] *)
Definition check_project : cellM unit :=
  system (sh_or (sh_test_nonempty "gcloud config get-value project")
                (sh_cmd "echo Select a project.")).

(** The first cell: the three checks, one line each. *)
Definition setup : cellM unit :=
  check_installed ;; check_authorized ;; check_project.

Definition gsutil_help : cellM unit := system (sh_cmd "gsutil help").
Definition gsutil_ls : cellM unit := system (sh_cmd "gsutil ls").

(** [bucket_name = "gs://amli-cloud-tutorial-bucket-"
                   + str(random.getrandbits(32)) + "/"] *)
Definition bucket_name : cellM string :=
  n <- call (GetRandBits 32) ;;
  Ret (("gs://amli-cloud-tutorial-bucket-" ++ str n) ++ "/").

Definition gsutil_mb (bucket_name : string) : cellM unit :=
  system (sh_cmd ("gsutil mb " ++ bucket_name)).
Definition gsutil_rb (bucket_name : string) : cellM unit :=
  system (sh_cmd ("gsutil rb " ++ bucket_name)).

Definition bucket : string := "gs://amli-cloud-tutorial-bucket/".

(** [x in xs] on a list of strings. *)
Definition contains (xs : list string) (x : string) : bool :=
  existsb (String.eqb x) xs.

(** The cell that makes the bucket for later work:
    [buckets = !gsutil ls], then [!gsutil mb {bucket}] under
    [if bucket not in buckets], then [!gsutil ls]. *)
Definition shared_bucket : cellM (string * list string) :=
  buckets <- getoutput "gsutil ls" ;;
  (if negb (contains buckets bucket)
   then system (sh_cmd ("gsutil mb " ++ bucket))
   else Ret tt) ;;
  system (sh_cmd "gsutil ls") ;;
  Ret (bucket, buckets).

Definition gsutil_help_cp : cellM unit := system (sh_cmd "gsutil help cp").

(** [notebooks = [nb for nb in os.listdir(".") if nb.endswith(".ipynb")]]
    and the loop that prints them. *)
Definition notebooks : cellM (list string) :=
  names <- (r <- call (ListDir ".") ;; lift r) ;;
  let notebooks := filter (fun nb => endswith nb ".ipynb") names in
  for_each (fun notebook => call (PyPrint (PStr ("- " ++ notebook)))) notebooks ;;
  Ret notebooks.

Definition cp_notebooks (bucket : string) : cellM unit :=
  system (sh_cmd ("gsutil cp *.ipynb " ++ bucket)).
Definition ls_bucket (bucket : string) : cellM unit :=
  system (sh_cmd ("gsutil ls " ++ bucket)).
Definition rm_notebooks (bucket : string) : cellM unit :=
  system (sh_cmd (("gsutil rm " ++ bucket) ++ "*.ipynb")).
Definition rm_bucket (bucket : string) : cellM unit :=
  system (sh_cmd ("gsutil rm -r " ++ bucket)).

(** The cells around [setup] and [shared_bucket], in the order of the
    notebook; [bn] and [b] are what the [bucket_name] and the
    [shared_bucket] cells left. *)
Definition walkthrough (bn b : string) : list cell :=
  [Cell gsutil_help; Cell gsutil_ls; Cell bucket_name; Cell (gsutil_mb bn);
   Cell gsutil_ls; Cell (gsutil_rb bn); Cell gsutil_ls;
   Cell gsutil_help_cp; Cell notebooks; Cell (cp_notebooks b);
   Cell (ls_bucket b); Cell (rm_notebooks b); Cell (ls_bucket b);
   Cell (rm_bucket b)].

End Storage.

(** ** pandas, as far as the last two cells use it *)

(** pandas is a library outside the repository.  The definitions below
    follow what it documents for a frame built from a list of dicts: the
    columns are the keys of the dicts, a dict without a key leaves a
    missing value in that column, selecting a label that is no column
    raises [KeyError], and [unique] keeps the first occurrence of each
    value in order of appearance. *)

Module Pandas.

(** A cell of a column: a Python object, or the missing value. *)
Inductive cellv : Type :=
| NaN
| Obj (v : pyval).

Definition record : Type := list (string * pyval).

(** A frame built from records: the labels of its columns, and its rows. *)
Record frame : Type := Frame { columns : list string; rows : list record }.

Definition has_label (labels : list string) (l : string) : bool :=
  existsb (String.eqb l) labels.

(** The values of [xs], each once, in order of first appearance. *)
Fixpoint distinct {A : Type} (eqb : A -> A -> bool) (seen xs : list A) : list A :=
  match xs with
  | [] => []
  | x :: rest =>
      if existsb (eqb x) seen then distinct eqb seen rest
      else x :: distinct eqb (x :: seen) rest
  end.

(** [pandas.DataFrame(data)] for [data] a list of dicts, the shape the
    analysis output gives to [texts]: one row per dict, one column per key
    that some dict has, in order of first appearance.  What pandas builds
    from lists of other things is not described here. *)
Definition DataFrame (data : list record) : frame :=
  Frame (distinct String.eqb [] (flat_map (map fst) data)) data.

(** The cell of row [r] in column [label]: missing when the dict of the
    row had no such key. *)
Definition at_label (label : string) (r : record) : cellv :=
  match lookup label r with
  | Some v => Obj v
  | None => NaN
  end.

(** [df[label]]: the column, or [KeyError] when no column has the label. *)
Definition column (df : frame) (label : string) : result (list cellv) :=
  if has_label (columns df) label
  then Ok (map (at_label label) (rows df))
  else Err (KeyError label).

Definition hashable (c : cellv) : bool :=
  match c with
  | Obj (PList _) | Obj (PDict _) => false
  | _ => true
  end.

(** Equality of two hashable cells.  Strings, [None] and the missing value
    compare as pandas compares them; a number equals only the same number
    of the same kind, which leaves out what Python identifies across kinds
    ([1], [1.0], [True]). *)
Definition same (a b : cellv) : bool :=
  match a, b with
  | NaN, NaN => true
  | Obj PNone, Obj PNone => true
  | Obj (PBool x), Obj (PBool y) => Bool.eqb x y
  | Obj (PInt x), Obj (PInt y) => x =? y
  | Obj (PFloat x), Obj (PFloat y) => x =? y
  | Obj (PStr x), Obj (PStr y) => String.eqb x y
  | _, _ => false
  end.

(** [series.unique()]: a list or a dict in the column is unhashable. *)
Definition unique (col : list cellv) : result (list cellv) :=
  if forallb hashable col
  then Ok (distinct same [] col)
  else Err (TypeError "unhashable type").

End Pandas.

(** ** [New York Times API.ipynb] *)

Module NYT.

Definition pip_install : cellM unit :=
  system (sh_cmd "pip install bs4") ;;
  system (sh_cmd "pip install requests").

Definition requests_get (url : pyval) : cellM response :=
  r <- call (HttpGet url []) ;; lift r.

Definition json_loads (text : string) : cellM pyval :=
  r <- call (JsonLoads text) ;; lift r.

Definition endpoint : string :=
  "https://api.nytimes.com/svc/news/v3/content/all/all.json".

(** The cell that lists the content: [request_url] grows by [+=], then
    [requests.get(request_url)] and [json.loads(response.content)].
    [api_key] is the string that the cell before it binds. *)
Definition request (api_key : string) : cellM (string * response * pyval) :=
  let request_url := endpoint in
  let request_url := request_url ++ "?" in
  let request_url := request_url ++ ("api-key=" ++ api_key) in
  response <- requests_get (PStr request_url) ;;
  response_json <- json_loads (content response) ;;
  Ret (request_url, response, response_json).

(** [for result in response_json["results"]: print(result["url"])] *)
Definition print_urls (response_json : pyval) : cellM unit :=
  results <- lift (getitem response_json "results") ;;
  items <- lift (iter results) ;;
  for_each (fun result =>
              u <- lift (getitem result "url") ;; call (PyPrint u)) items ;;
  Ret tt.

(** [url = response_json["results"][1]["url"]] and
    [response = requests.get(url)] *)
Definition fetch_article (response_json : pyval) : cellM (pyval * response) :=
  results <- lift (getitem response_json "results") ;;
  second <- lift (getindex results 1) ;;
  url <- lift (getitem second "url") ;;
  response <- requests_get url ;;
  Ret (url, response).

(** [soup = BeautifulSoup(response.content)] and [print(soup.prettify())] *)
Definition parse (response : response) : cellM soup :=
  soup <- (r <- call (SoupParse (content response)) ;; lift r) ;;
  pretty <- (r <- call (SoupPrettify soup) ;; lift r) ;;
  call (PyPrint (PStr pretty)) ;;
  Ret soup.

(** [article = soup.find("section", attrs={"name": "articleBody"})] and
    [article_text = article.get_text()]; [find] gives [None] when no tag
    matches. *)
Definition article_text (soup : soup) : cellM (option tag * string) :=
  article <- (r <- call (SoupFind soup "section" [("name", "articleBody")]) ;;
              lift r) ;;
  article_text <-
    match article with
    | Some t => r <- call (TagGetText t) ;; lift r
    | None => Raise (AttributeError
                       "'NoneType' object has no attribute 'get_text'")
    end ;;
  Ret (article, article_text).

Definition help_analyze : cellM unit :=
  system (sh_cmd "gcloud help ml language analyze-entities").

(** [nyt_text_filename = "nyt.txt"] and
    [with open(nyt_text_filename, "w") as nyt_text_file:
         nyt_text_file.write(article_text)]
    The file is closed on the way out also when [write] raised; an
    exception of the closing replaces the one of [write]. *)
Definition write_article (article_text : string) : cellM string :=
  let nyt_text_filename := "nyt.txt" in
  nyt_text_file <- (r <- call (FileOpen nyt_text_filename "w") ;; lift r) ;;
  written <- call (FileWrite nyt_text_file article_text) ;;
  closed <- call (FileClose nyt_text_file) ;;
  match closed, written with
  | Err e, _ => Raise e
  | Ok _, Err e => Raise e
  | Ok _, Ok _ => Ret nyt_text_filename
  end.

(** [google_cloud_bucket = "gs://amli-tutorial-ml-entity-analysis/"] and
    [!gsutil mb {google_cloud_bucket}] *)
Definition make_bucket : cellM string :=
  let google_cloud_bucket := "gs://amli-tutorial-ml-entity-analysis/" in
  system (sh_cmd ("gsutil mb " ++ google_cloud_bucket)) ;;
  Ret google_cloud_bucket.

(** [cloud_nyt_text_filename = google_cloud_bucket + nyt_text_filename] *)
Definition cloud_nyt_text_filename
    (google_cloud_bucket nyt_text_filename : string) : cellM string :=
  Ret (google_cloud_bucket ++ nyt_text_filename).

(** [!gsutil cp {nyt_text_filename} {cloud_nyt_text_filename}] *)
Definition upload (nyt_text_filename cloud_nyt_text_filename : string)
    : cellM unit :=
  system (sh_cmd ((("gsutil cp " ++ nyt_text_filename) ++ " ")
                  ++ cloud_nyt_text_filename)).

(** [analysis_lines = !gcloud ml language analyze-entities
                       --content-file={cloud_nyt_text_filename}] *)
Definition analysis_lines (cloud_nyt_text_filename : string)
    : cellM (list string) :=
  getoutput ("gcloud ml language analyze-entities --content-file="
             ++ cloud_nyt_text_filename).

Definition newline : string := String (ascii_of_nat 10) EmptyString.

(** [analysis = "\n".join(analysis_lines)] and [print(analysis)] *)
Definition analysis (analysis_lines : list string) : cellM string :=
  let analysis := join newline analysis_lines in
  call (PyPrint (PStr analysis)) ;;
  Ret analysis.

(** [analysis_json = json.loads(analysis)] and
    [entities = analysis_json["entities"]] *)
Definition entities (analysis : string) : cellM (pyval * pyval) :=
  analysis_json <- json_loads analysis ;;
  entities <- lift (getitem analysis_json "entities") ;;
  Ret (analysis_json, entities).

(** [mentions_lists = [entity["mentions"] for entity in entities]] *)
Definition mentions_lists (entities : pyval) : cellM (list pyval) :=
  items <- lift (iter entities) ;;
  for_each (fun entity => lift (getitem entity "mentions")) items.

(** [mentions = [mention for mentions_list in mentions_lists
                         for mention in mentions_list]] *)
Definition mentions (mentions_lists : list pyval) : cellM (list pyval) :=
  lists <- for_each (fun mentions_list => lift (iter mentions_list))
                    mentions_lists ;;
  Ret (List.concat lists).

(** [texts = [mention["text"] for mention in mentions]] *)
Definition texts (mentions : list pyval) : cellM (list pyval) :=
  for_each (fun mention => lift (getitem mention "text")) mentions.

(** [df = pandas.DataFrame(texts)], for [texts] a list of dicts. *)
Definition df (texts : list Pandas.record) : cellM Pandas.frame :=
  Ret (Pandas.DataFrame texts).

(** [df["content"].unique()] *)
Definition unique_content (df : Pandas.frame) : cellM (list Pandas.cellv) :=
  col <- lift (Pandas.column df "content") ;;
  lift (Pandas.unique col).

(** [!gsutil rm -r {google_cloud_bucket}] *)
Definition remove_bucket (google_cloud_bucket : string) : cellM unit :=
  system (sh_cmd ("gsutil rm -r " ++ google_cloud_bucket)).

End NYT.

(** ** Auxiliary definitions for the statements *)

(** A comprehension whose body calls nothing, as a plain function. *)
Fixpoint traverse {A B : Type} (f : A -> result B) (xs : list A) : result (list B) :=
  match xs with
  | [] => Ok []
  | x :: rest =>
      match f x with
      | Err e => Err e
      | Ok y =>
          match traverse f rest with
          | Err e => Err e
          | Ok ys => Ok (y :: ys)
          end
      end
  end.

(** The total length of a list of lists. *)
Definition total_length {A : Type} (ls : list (list A)) : nat :=
  list_sum (map (@List.length A) ls).

(** The calls and the outcome of a run, without the world. *)
Definition observed {A W : Type} (x : list io * result A * W)
    : list io * result A :=
  fst x.

(** *** A cell after which the next one runs *)

(** From call [n] on, [c] ends without an exception, and whatever cell
    comes next runs from where [c] stopped. *)
Definition runs_on (o : script) (n : nat) (c : cellM unit) : Prop :=
  result_of (run_from o n c) = Ok tt /\
  forall (A : Type) (next : cellM A),
    let x := run_from o n c in
    let y := run_from o (world_of x) next in
    observed (run_from o n (c ;; next)) =
    ((log_of x ++ log_of y)%list, result_of y).

(** *** The shell lines of the three checks *)

(** What stands after [!] in each check; the value of a line is its exit
    status, which [!] puts into [_exit_code]. *)
Definition presence_line : cellM Z :=
  sh_or (sh_cmd "which gcloud") (sh_cmd "echo Install GCloud.").

Definition authentication_line : cellM Z :=
  sh_or (sh_cmd "gcloud auth print-access-token")
        (sh_backquote "gcloud auth login").

Definition project_line : cellM Z :=
  sh_or (sh_test_nonempty "gcloud config get-value project")
        (sh_cmd "echo Select a project.").

(** *** Worlds that differ only in what commands print *)

(** An answer with the printed lines of a command blanked. *)
Definition mute (ev : event) : answer ev -> answer ev :=
  match ev with
  | Exec _ => fun r => (fst r, [])
  | _ => fun r => r
  end.

(** Two scripts that give every call the same answer, but for the lines
    that commands print. *)
Definition same_but_output (o1 o2 : script) : Prop :=
  forall (n : nat) (ev : event), mute ev (o1 n ev) = mute ev (o2 n ev).

(** A cell whose calls and outcome are the same whatever the commands
    print. *)
Definition output_blind (c : cell) : Prop :=
  forall o1 o2 : script,
    same_but_output o1 o2 ->
    observed (run_script o1 (cell_body c)) =
    observed (run_script o2 (cell_body c)).

(** The same, read off the code: no continuation looks at the lines. *)
Fixpoint ignores_output {A : Type} (c : cellM A) : Prop :=
  match c with
  | Ret _ => True
  | Raise _ => True
  | Vis ev k => forall r, k r = k (mute ev r) /\ ignores_output (k r)
  end.

(** *** Exceptions that nobody catches *)

(** A run in which a call that raised is the last call, and its exception
    is how the cell ended. *)
Definition stops_at_raise {A W : Type} (x : list io * result A * W) : Prop :=
  forall (before after : list io) (ev : event) (e : exn),
    log_of x = (before ++ (ev, Some e) :: after)%list ->
    after = [] /\ result_of x = Err e.

(** The same, read off the code: the continuation of a call that raised
    is [Raise] of that exception. *)
Fixpoint uncaught {A : Type} (c : cellM A) : Prop :=
  match c with
  | Ret _ => True
  | Raise _ => True
  | Vis ev k =>
      forall r, match raised ev r with
                | Some e => k r = Raise e
                | None => uncaught (k r)
                end
  end.

(** *** Sample worlds *)

(** A world where every command succeeds without output and every library
    call gives an empty value. *)
Definition quiet (ev : event) : answer ev :=
  match ev with
  | Exec _ => (0, [])
  | PyPrint _ => tt
  | GetRandBits _ => 0
  | ListDir _ => Ok []
  | FileOpen _ _ => Ok 3
  | FileWrite _ text => Ok (Z.of_nat (String.length text))
  | FileClose _ => Ok tt
  | HttpGet _ _ => Ok (Response 200 "")
  | JsonLoads _ => Ok PNone
  | SoupParse _ => Ok 0%nat
  | SoupPrettify _ => Ok ""
  | SoupFind _ _ _ => Ok None
  | TagGetText _ => Ok ""
  end.

(** The quiet world, but [json.loads] decodes to [v]. *)
Definition decoding (v : pyval) : script :=
  fun _ ev =>
    match ev return answer ev with
    | JsonLoads _ => Ok v
    | ev' => quiet ev'
    end.

(** The quiet world, but every command prints [lines]. *)
Definition printing (lines : list string) : script :=
  fun _ ev =>
    match ev return answer ev with
    | Exec _ => (0, lines)
    | ev' => quiet ev'
    end.

(** The quiet world, but every command fails with status 1 after
    printing [lines]. *)
Definition failing (lines : list string) : script :=
  fun _ ev =>
    match ev return answer ev with
    | Exec _ => (1, lines)
    | ev' => quiet ev'
    end.

(** The quiet world, but the random draw is [n]. *)
Definition drawing (n : Z) : script :=
  fun _ ev =>
    match ev return answer ev with
    | GetRandBits _ => n
    | ev' => quiet ev'
    end.

(** The quiet world, but no request gets through. *)
Definition offline : script :=
  fun _ ev =>
    match ev return answer ev with
    | HttpGet _ _ => Err (Exn "ConnectionError" "Max retries exceeded")
    | ev' => quiet ev'
    end.

(** [s] without the prefix [p], when it starts with it. *)
Fixpoint strip_prefix (p s : string) : option string :=
  match p, s with
  | EmptyString, _ => Some s
  | String a p', String b s' =>
      if Ascii.eqb a b then strip_prefix p' s' else None
  | String _ _, EmptyString => None
  end.

(** A storage account as the set of its bucket names: [gsutil ls] prints
    them and changes nothing, [gsutil mb] adds one that is not there yet,
    and fails on one that is. *)
Definition gsutil (ev : event) (account : list string)
    : answer ev * list string :=
  match ev return answer ev * list string with
  | Exec argv =>
      if String.eqb argv "gsutil ls" then ((0, account), account)
      else match strip_prefix "gsutil mb " argv with
           | Some b =>
               if Storage.contains account b then ((1, []), account)
               else ((0, []), (account ++ [b])%list)
           | None => ((0, []), account)
           end
  | ev' => (quiet ev', account)
  end.

(** The quiet world as a script. *)
Definition calm : script := fun _ ev => quiet ev.

(** A listing with two results. *)
Definition sample_listing : pyval :=
  PDict [("status", PStr "OK");
         ("results",
          PList [PDict [("title", PStr "First"); ("url", PStr "https://www.nytimes.com/a.html")];
                 PDict [("title", PStr "Second"); ("url", PStr "https://www.nytimes.com/b.html")]])].

(** *** Decimal digits *)

Definition is_digit (c : ascii) : bool :=
  (48 <=? nat_of_ascii c)%nat && (nat_of_ascii c <=? 57)%nat.

Definition all_digits (s : string) : bool :=
  forallb is_digit (list_ascii_of_string s).

(** *** The four cells that store the article *)

(** The cells from [open] to [gsutil cp], one after the other, each given
    what the ones before it left. *)
Definition store_article (article_text : string) : cellM string :=
  nyt_text_filename <- NYT.write_article article_text ;;
  google_cloud_bucket <- NYT.make_bucket ;;
  cloud_nyt_text_filename <-
    NYT.cloud_nyt_text_filename google_cloud_bucket nyt_text_filename ;;
  NYT.upload nyt_text_filename cloud_nyt_text_filename ;;
  Ret cloud_nyt_text_filename.

(** *** A sample of the analysis output *)

Definition span (offset : Z) (text : string) : pyval :=
  PDict [("text", PDict [("beginOffset", PInt offset); ("content", PStr text)]);
         ("type", PStr "PROPER")].

Definition sample_mentions : list (list pyval) :=
  [[span 0 "Google"]; [span 31 "Mountain View"; span 58 "Mountain View"]].

Definition sample_entities : list pyval :=
  [PDict [("mentions", PList [span 0 "Google"]); ("name", PStr "Google")];
   PDict [("mentions", PList [span 31 "Mountain View"; span 58 "Mountain View"]);
          ("name", PStr "Mountain View")]].

Definition sample_analysis : pyval :=
  PDict [("entities", PList sample_entities); ("language", PStr "en")].

(** *** The last two cells in a row *)

(** [df = pandas.DataFrame(texts)], then [df["content"].unique()]. *)
Definition unique_listing (texts : list Pandas.record)
    : cellM (list Pandas.cellv) :=
  df <- NYT.df texts ;; NYT.unique_content df.

(** The record of a text span has the key ["content"]. *)
Definition has_content (r : Pandas.record) : Prop :=
  lookup "content" r <> None.

(** The strings of [xs], each once, in order of first occurrence. *)
Definition first_occurrences (xs : list string) : list string :=
  Pandas.distinct String.eqb [] xs.

(** The [texts] of the sample, and a list where one span has lost its
    content. *)
Definition sample_texts : list Pandas.record :=
  [[("beginOffset", PInt 0); ("content", PStr "Google")];
   [("beginOffset", PInt 31); ("content", PStr "Mountain View")];
   [("beginOffset", PInt 58); ("content", PStr "Mountain View")]].

Definition texts_missing_content : list Pandas.record :=
  [[("beginOffset", PInt 0); ("content", PStr "Google")];
   [("beginOffset", PInt 31)]].

(** ** Cells in a row *)

(** The cells of the [gcloud] notebook from the draw of the project name
    to the listing after its deletion. *)
Definition project_lifecycle : cellM string :=
  project_name <- GCloud.project_name ;;
  GCloud.projects_create project_name ;;
  GCloud.projects_list ;;
  GCloud.projects_describe project_name ;;
  GCloud.projects_delete project_name ;;
  GCloud.projects_list ;;
  Ret project_name.

(** The cells of the storage notebook from the draw of the bucket name to
    the listing after its removal. *)
Definition bucket_lifecycle : cellM string :=
  bucket_name <- Storage.bucket_name ;;
  Storage.gsutil_mb bucket_name ;;
  Storage.gsutil_ls ;;
  Storage.gsutil_rb bucket_name ;;
  Storage.gsutil_ls ;;
  Ret bucket_name.

(** The cells of the storage notebook from the bucket for later work to
    the end. *)
Definition files_lifecycle : cellM (list string) :=
  ' (bucket, buckets) <- Storage.shared_bucket ;;
  Storage.gsutil_help_cp ;;
  notebooks <- Storage.notebooks ;;
  Storage.cp_notebooks bucket ;;
  Storage.ls_bucket bucket ;;
  Storage.rm_notebooks bucket ;;
  Storage.ls_bucket bucket ;;
  Storage.rm_bucket bucket ;;
  Ret notebooks.

(** The cells of the Times notebook from the listing request to the text
    of the article. *)
Definition scrape (api_key : string) : cellM string :=
  ' (request_url, response, response_json) <- NYT.request api_key ;;
  NYT.print_urls response_json ;;
  ' (url, response) <- NYT.fetch_article response_json ;;
  soup <- NYT.parse response ;;
  ' (article, article_text) <- NYT.article_text soup ;;
  Ret article_text.

(** The three cells that turn the output of the analysis command into
    [entities]. *)
Definition decode_analysis (cloud_nyt_text_filename : string) : cellM pyval :=
  analysis_lines <- NYT.analysis_lines cloud_nyt_text_filename ;;
  analysis <- NYT.analysis analysis_lines ;;
  ' (analysis_json, entities) <- NYT.entities analysis ;;
  Ret entities.

(** Every cell of the two notebooks that drive the command line tools. *)
Definition cli_cells (pn bn b : string) : list cell :=
  (Cell GCloud.check_installed :: Cell GCloud.check_authorized ::
   GCloud.walkthrough pn ++
   Cell Storage.setup :: Cell Storage.shared_bucket ::
   Storage.walkthrough bn b)%list.

(** ** The version check of the TensorFlow notebook *)

Module TensorFlow.

Definition ValueError (msg : string) : exn := Exn "ValueError" msg.

(** [int(version[0])]: the first character of the text, read as a decimal
    digit.  An empty text has no first character; a character that is no
    digit is no literal (the message of Python goes on with the text). *)
Definition first_digit (version : string) : result Z :=
  match version with
  | EmptyString => Err (IndexError "string index out of range")
  | String c _ =>
      if (48 <=? nat_of_ascii c)%nat && (nat_of_ascii c <=? 57)%nat
      then Ok (Z.of_nat (nat_of_ascii c) - 48)
      else Err (ValueError "invalid literal for int() with base 10")
  end.

(** [if int(tensorflow.__version__[0]) > 1:] the branch that imports
    [tensorflow.compat.v1] is taken when this gives [True]. *)
Definition uses_compat_v1 (version : string) : result bool :=
  match first_digit version with
  | Ok n => Ok (n >? 1)
  | Err e => Err e
  end.

End TensorFlow.

(** ** Auxiliary definitions for the further statements *)

(** [text.split("\n")]: the pieces of [text] between its newlines. *)
Fixpoint split_lines (text piece : string) : list string :=
  match text with
  | EmptyString => [piece]
  | String c rest =>
      if Ascii.eqb c (ascii_of_nat 10)
      then piece :: split_lines rest ""
      else split_lines rest (piece ++ String c "")
  end.

(** A text without a newline in it. *)
Fixpoint one_line (s : string) : bool :=
  match s with
  | EmptyString => true
  | String c rest => negb (Ascii.eqb c (ascii_of_nat 10)) && one_line rest
  end.

(** *** Worlds that differ only in the status of the responses *)

(** An answer with the status code of a response blanked. *)
Definition without_status (ev : event) : answer ev -> answer ev :=
  match ev with
  | HttpGet _ _ => fun r =>
      match r with
      | Ok response => Ok (Response 0 (content response))
      | Err e => Err e
      end
  | _ => fun r => r
  end.

Definition same_but_status (o1 o2 : script) : Prop :=
  forall (n : nat) (ev : event),
    without_status ev (o1 n ev) = without_status ev (o2 n ev).

(** Two cells that go the same way as long as their calls get answers
    that agree but for the status codes, and end with values in [R]. *)
Inductive alike {A B : Type} (R : A -> B -> Prop) : cellM A -> cellM B -> Prop :=
| alike_ret (a : A) (b : B) : R a b -> alike R (Ret a) (Ret b)
| alike_raise (e : exn) : alike R (Raise e) (Raise e)
| alike_vis (ev : event) (k1 : answer ev -> cellM A) (k2 : answer ev -> cellM B) :
    (forall r1 r2, without_status ev r1 = without_status ev r2 ->
                   alike R (k1 r1) (k2 r2)) ->
    alike R (Vis ev k1) (Vis ev k2).

(** A cell that sends no request. *)
Fixpoint no_request {A : Type} (c : cellM A) : Prop :=
  match c with
  | Ret _ => True
  | Raise _ => True
  | Vis ev k =>
      match ev with
      | HttpGet _ _ => False
      | _ => forall r, no_request (k r)
      end
  end.

(** Two outcomes that agree up to [R]. *)
Definition agree {A B : Type} (R : A -> B -> Prop)
    (x : result A) (y : result B) : Prop :=
  match x, y with
  | Ok a, Ok b => R a b
  | Err e1, Err e2 => e1 = e2
  | _, _ => False
  end.

(** *** Further sample worlds *)

(** A world where the directory cannot be read. *)
Definition unreadable : script :=
  fun _ ev =>
    match ev return answer ev with
    | ListDir _ => Err (Exn "PermissionError" "Permission denied")
    | ev' => quiet ev'
    end.

(** A world where the directory holds [names]. *)
Definition holding (names : list string) : script :=
  fun _ ev =>
    match ev return answer ev with
    | ListDir _ => Ok names
    | ev' => quiet ev'
    end.

(** A world where every request is answered with status [code], the
    listing decodes to the sample, and the page has a body. *)
Definition newsroom (code : Z) : script :=
  fun _ ev =>
    match ev return answer ev with
    | HttpGet _ _ => Ok (Response code "<html>")
    | JsonLoads _ => Ok sample_listing
    | SoupFind _ _ _ => Ok (Some 7%nat)
    | TagGetText _ => Ok "Body of the article."
    | ev' => quiet ev'
    end.

(** A world where the page has no section for the body. *)
Definition bodiless : script :=
  fun _ ev =>
    match ev return answer ev with
    | SoupFind _ _ _ => Ok None
    | ev' => quiet ev'
    end.

(** A listing where the second result has lost its address. *)
Definition listing_missing_url : pyval :=
  PDict [("results",
          PList [PDict [("url", PStr "https://www.nytimes.com/a.html")];
                 PDict [("title", PStr "Second")];
                 PDict [("url", PStr "https://www.nytimes.com/c.html")]])].

(** A storage account with removal: as [gsutil] above, and [gsutil rb]
    takes a bucket away; the random draw is [draw]. *)
Definition account (draw : Z) (ev : event) (buckets : list string)
    : answer ev * list string :=
  match ev return answer ev * list string with
  | Exec argv =>
      if String.eqb argv "gsutil ls" then ((0, buckets), buckets)
      else match strip_prefix "gsutil mb " argv with
           | Some b =>
               if Storage.contains buckets b then ((1, []), buckets)
               else ((0, []), (buckets ++ [b])%list)
           | None =>
               match strip_prefix "gsutil rb " argv with
               | Some b =>
                   ((0, []),
                    filter (fun x => negb (String.eqb x b)) buckets)
               | None => ((0, []), buckets)
               end
           end
  | GetRandBits _ => (draw, buckets)
  | ev' => (quiet ev', buckets)
  end.

(** * Properties *)

(** ** Running and binding *)

Lemma run_bind (W : Type) (handle : forall ev, W -> answer ev * W)
    (A B : Type) (c : cellM A) (f : A -> cellM B) (w : W) :
  run handle (bind c f) w =
  match run handle c w with
  | (log, Ok a, w1) =>
      match run handle (f a) w1 with
      | (log', res, w2) => ((log ++ log')%list, res, w2)
      end
  | (log, Err e, w1) => (log, Err e, w1)
  end.
Proof.
  revert w; induction c as [a | e | ev k IH]; intro w; simpl.
  - destruct (run handle (f a) w) as [[log' res] w2]; reflexivity.
  - reflexivity.
  - destruct (handle ev w) as [r w1].
    rewrite IH.
    destruct (run handle (k r) w1) as [[log [a | e]] w2]; simpl.
    + destruct (run handle (f a) w2) as [[log' res] w3]; reflexivity.
    + reflexivity.
Qed.

Lemma for_each_lift (A B : Type) (f : A -> result B) (xs : list A) :
  for_each (fun x => lift (f x)) xs = lift (traverse f xs).
Proof.
  induction xs as [| x rest IH]; simpl; [reflexivity |].
  destruct (f x) as [y | e]; simpl; [| reflexivity].
  rewrite IH.
  destruct (traverse f rest) as [ys | e]; reflexivity.
Qed.

Lemma traverse_ok (A B : Type) (f : A -> result B) (xs : list A) (ys : list B) :
  traverse f xs = Ok ys <-> Forall2 (fun x y => f x = Ok y) xs ys.
Proof.
  revert ys; induction xs as [| x rest IH]; intro ys; simpl.
  - split.
    + intro H; injection H as <-; constructor.
    + intro H; inversion H; reflexivity.
  - split.
    + destruct (f x) as [y | e] eqn:Hx; [| discriminate].
      destruct (traverse f rest) as [ys' | e] eqn:Hr; [| discriminate].
      intro H; injection H as <-.
      constructor; [assumption | apply IH; reflexivity].
    + intro H; inversion H as [| x' y rest' ys' Hx Hrest]; subst.
      rewrite Hx.
      apply IH in Hrest; rewrite Hrest; reflexivity.
Qed.

Lemma lift_ret (A : Type) (r : result A) (a : A) :
  lift r = Ret a <-> r = Ok a.
Proof.
  destruct r as [a' | e]; simpl; split; intro H;
    try discriminate; inversion H; reflexivity.
Qed.

Lemma length_concat_total (A : Type) (ls : list (list A)) :
  List.length (List.concat ls) = total_length ls.
Proof.
  unfold total_length.
  induction ls as [| l rest IH]; simpl; [reflexivity |].
  rewrite List.length_app, IH; reflexivity.
Qed.

Lemma getindex_nonneg (items : list pyval) (i : Z) :
  0 <= i ->
  getindex (PList items) i =
  match nth_error items (Z.to_nat i) with
  | Some x => Ok x
  | None => Err (IndexError "list index out of range")
  end.
Proof.
  intro Hi; unfold getindex.
  destruct (i <? 0) eqn:Hneg; [apply Z.ltb_lt in Hneg; lia |].
  destruct (0 <=? i) eqn:Hle; [| apply Z.leb_gt in Hle; lia].
  destruct (i <? Z.of_nat (Datatypes.length items)) eqn:Hlt; simpl.
  - reflexivity.
  - apply Z.ltb_ge in Hlt.
    assert (Hnone : nth_error items (Z.to_nat i) = None)
      by (apply nth_error_None; lia).
    rewrite Hnone; reflexivity.
Qed.

Lemma Forall2_nth_error (A B : Type) (P : A -> B -> Prop)
    (xs : list A) (ys : list B) (n : nat) :
  Forall2 P xs ys ->
  match nth_error xs n, nth_error ys n with
  | Some x, Some y => P x y
  | None, None => True
  | _, _ => False
  end.
Proof.
  intro H; revert n; induction H as [| x y xs ys Hxy _ IH]; intro n.
  - destruct n; exact I.
  - destruct n as [| n]; simpl; [exact Hxy | apply IH].
Qed.

Lemma append_assoc (a b c : string) : (a ++ b) ++ c = a ++ b ++ c.
Proof.
  induction a as [| x a IH]; simpl; [reflexivity | rewrite IH; reflexivity].
Qed.

(** ** Flattening the analysis output *)

(** C1.  When [json.loads] gives an analysis whose ["entities"] is a list
    of dicts that each hold a list under ["mentions"], the [entities] cell
    leaves that list, [mentions_lists] is the list of the per-entity
    lists, [mentions] is their concatenation from left to right (so its
    length is the sum of their lengths), and [texts] is a list [ts]
    exactly when [ts] holds, position by position, the ["text"] of each
    flattened mention. *)
Theorem mentions_flattened_texts_projected
    (o : script) (analysis : string) (analysis_json : pyval)
    (es : list pyval) (mls : list (list pyval))
    (Hloads : o 0%nat (JsonLoads analysis) = Ok analysis_json)
    (Hentities : getitem analysis_json "entities" = Ok (PList es))
    (Hmentions : Forall2 (fun e ms => getitem e "mentions" = Ok (PList ms)) es mls) :
  result_of (run_script o (NYT.entities analysis)) = Ok (analysis_json, PList es) /\
  NYT.mentions_lists (PList es) = Ret (map PList mls) /\
  NYT.mentions (map PList mls) = Ret (List.concat mls) /\
  List.length (List.concat mls) = total_length mls /\
  forall ts : list pyval,
    NYT.texts (List.concat mls) = Ret ts <->
    Forall2 (fun m t => getitem m "text" = Ok t) (List.concat mls) ts.
Proof.
  repeat split.
  - unfold run_script, run_from, result_of, NYT.entities, NYT.json_loads; simpl.
    unfold play; simpl; rewrite Hloads; simpl.
    rewrite Hentities; reflexivity.
  - unfold NYT.mentions_lists; simpl.
    rewrite for_each_lift.
    apply lift_ret, traverse_ok.
    clear - Hmentions.
    induction Hmentions; simpl; constructor; assumption.
  - unfold NYT.mentions.
    rewrite for_each_lift.
    assert (H : traverse iter (map PList mls) = Ok mls).
    { apply traverse_ok.
      clear; induction mls; simpl; constructor; [reflexivity | assumption]. }
    rewrite H; reflexivity.
  - apply length_concat_total.
  - unfold NYT.texts; rewrite for_each_lift; intro H.
    apply traverse_ok, lift_ret; exact H.
  - unfold NYT.texts; rewrite for_each_lift; intro H.
    apply lift_ret, traverse_ok; exact H.
Qed.

Lemma mentions_flattened_texts_projected_witness :
  NYT.mentions (map PList sample_mentions) =
  Ret [span 0 "Google"; span 31 "Mountain View"; span 58 "Mountain View"].
Proof.
  refine (proj1 (proj2 (proj2
    (@mentions_flattened_texts_projected
       (decoding sample_analysis) "{}" sample_analysis
       sample_entities sample_mentions _ _ _)))).
  - reflexivity.
  - reflexivity.
  - repeat constructor.
Defined.

(** ** The two requests *)

(** C5.  Whatever key [k] the cell is given, its first call is
    [requests.get] of the endpoint followed by ["?api-key="] and [k], with
    no other argument; the only other call of the cell decodes the body
    of the response. *)
Theorem request_url_carries_key (o : script) (k : string) :
  let request_url := NYT.endpoint ++ "?api-key=" ++ k in
  calls_of (run_script o (NYT.request k)) =
  HttpGet (PStr request_url) [] ::
  match o 0%nat (HttpGet (PStr request_url) []) with
  | Ok response => [JsonLoads (content response)]
  | Err _ => []
  end.
Proof.
  intro request_url.
  assert (Hurl : ((NYT.endpoint ++ "?") ++ ("api-key=" ++ k)) = request_url)
    by reflexivity.
  unfold NYT.request; rewrite Hurl.
  unfold run_script, run_from, calls_of, log_of, NYT.requests_get,
    NYT.json_loads.
  generalize request_url; clear; intro url.
  cbn -[append]; unfold play; cbn -[append].
  destruct (o 0%nat (HttpGet (PStr url) [])) as [response | e];
    cbn -[append]; [| reflexivity].
  destruct (o 1%nat (JsonLoads (content response))) as [response_json | e];
    reflexivity.
Qed.

(** C4.  For a decoded listing whose ["results"] is a list of dicts that
    each hold a ["url"], the cell requests a URL [u] exactly when [u] is
    the ["url"] of the element at index 1 of that list, it requests
    nothing else, and [url] is left as that value; a list with no element
    at index 1 ends the cell with [IndexError] before any request. *)
Theorem second_result_fetched
    (o : script) (response_json : pyval)
    (results : list pyval) (urls : list pyval)
    (Hresults : getitem response_json "results" = Ok (PList results))
    (Hurls : Forall2 (fun r u => getitem r "url" = Ok u) results urls) :
  let x := run_script o (NYT.fetch_article response_json) in
  (forall ev, In ev (calls_of x) <->
              exists u, nth_error urls 1 = Some u /\ ev = HttpGet u []) /\
  (List.length (calls_of x) <= 1)%nat /\
  (forall u response, result_of x = Ok (u, response) ->
                      nth_error urls 1 = Some u) /\
  (nth_error results 1 = None ->
   calls_of x = [] /\ result_of x = Err (IndexError "list index out of range")).
Proof.
  intro x; subst x.
  unfold NYT.fetch_article; rewrite Hresults; cbn [lift bind].
  rewrite getindex_nonneg by lia; change (Z.to_nat 1) with 1%nat.
  pose proof (Forall2_nth_error 1 Hurls) as Hnth.
  destruct (nth_error results 1) as [second |] eqn:Hsecond;
    destruct (nth_error urls 1) as [u1 |] eqn:Hu1; try contradiction.
  - cbn [lift bind]; rewrite Hnth; cbn [lift bind].
    unfold run_script, run_from, calls_of, log_of, result_of, NYT.requests_get.
    cbn; unfold play; cbn.
    assert (Hcalls : forall ev : event,
               HttpGet u1 [] = ev \/ False <->
               exists u, Some u1 = Some u /\ ev = HttpGet u []).
    { intro ev; split.
      - intros [<- | []]; exists u1; split; reflexivity.
      - intros [u [Hu ->]]; injection Hu as <-; left; reflexivity. }
    destruct (o 0%nat (HttpGet u1 [])) as [response | e]; cbn;
      (split; [exact Hcalls | split; [lia | split]]); try discriminate.
    intros u resp H; injection H as <- _; reflexivity.
  - cbn.
    split; [| split; [lia | split]]; try discriminate.
    + intro ev; split; [intros [] | intros [u [Hu _]]; discriminate].
    + intros _; split; reflexivity.
Qed.

Lemma second_result_fetched_witness :
  In (HttpGet (PStr "https://www.nytimes.com/b.html") [])
     (calls_of (run_script calm (NYT.fetch_article sample_listing))).
Proof.
  refine (proj2 (proj1
    (@second_result_fetched calm sample_listing _
       [PStr "https://www.nytimes.com/a.html";
        PStr "https://www.nytimes.com/b.html"] _ _) _) _).
  - reflexivity.
  - repeat constructor.
  - exists (PStr "https://www.nytimes.com/b.html"); split; reflexivity.
Defined.

(** ** Storing the article *)

(** C6.  When the file opens as [fd], the one [write] of the cell has
    the article text itself as its argument, on the file opened as
    ["nyt.txt"] for writing; the destination of the copy is the bucket
    string followed by the file name, whatever the two are; and when
    writing and closing succeed, the four cells in a row copy ["nyt.txt"]
    to the bucket URI followed by ["nyt.txt"]. *)
Theorem article_written_then_uploaded
    (o : script) (article_text : string) (fd : Z)
    (Hopen : o 0%nat (FileOpen "nyt.txt" "w") = Ok fd) :
  calls_of (run_script o (NYT.write_article article_text)) =
    [FileOpen "nyt.txt" "w"; FileWrite fd article_text; FileClose fd] /\
  (forall b f : string,
     NYT.cloud_nyt_text_filename b f = Ret (b ++ f) /\
     calls_of (run_script o (NYT.upload f (b ++ f))) =
       [Exec ("gsutil cp " ++ f ++ " " ++ b ++ f)]) /\
  (forall n : Z,
     o 1%nat (FileWrite fd article_text) = Ok n ->
     o 2%nat (FileClose fd) = Ok tt ->
     observed (run_script o (store_article article_text)) =
       ([(FileOpen "nyt.txt" "w", None);
         (FileWrite fd article_text, None);
         (FileClose fd, None);
         (Exec "gsutil mb gs://amli-tutorial-ml-entity-analysis/", None);
         (Exec "gsutil cp nyt.txt gs://amli-tutorial-ml-entity-analysis/nyt.txt",
          None)],
        Ok "gs://amli-tutorial-ml-entity-analysis/nyt.txt")).
Proof.
  split; [| split].
  - unfold run_script, run_from, calls_of, log_of, NYT.write_article.
    cbn; unfold play; cbn; rewrite Hopen; cbn.
    destruct (o 1%nat (FileWrite fd article_text)) as [n | e];
      destruct (o 2%nat (FileClose fd)) as [[] | e']; reflexivity.
  - intros b f; split; [reflexivity |].
    unfold run_script, run_from, calls_of, log_of, NYT.upload, system, sh_cmd.
    cbn -[append]; unfold play; cbn -[append].
    rewrite !append_assoc; reflexivity.
  - intros n Hwrite Hclose.
    unfold run_script, run_from, observed, store_article, NYT.write_article.
    cbn; unfold play; cbn; rewrite Hopen; cbn.
    rewrite Hwrite, Hclose; cbn.
    reflexivity.
Qed.

Lemma article_written_then_uploaded_witness :
  calls_of (run_script calm (NYT.write_article "Body of the article.")) =
  [FileOpen "nyt.txt" "w"; FileWrite 3 "Body of the article."; FileClose 3].
Proof.
  exact (proj1 (@article_written_then_uploaded
                  calm "Body of the article." 3 eq_refl)).
Defined.

(** ** Generated names *)

Lemma length_append (a b : string) :
  String.length (a ++ b) = (String.length a + String.length b)%nat.
Proof.
  induction a as [| x a IH]; simpl; [reflexivity | rewrite IH; reflexivity].
Qed.

Lemma substring_whole (b : string) : substring 0 (String.length b) b = b.
Proof.
  induction b as [| x b IH]; simpl; [reflexivity | rewrite IH; reflexivity].
Qed.

Lemma substring_skip (a b : string) :
  substring (String.length a) (String.length b) (a ++ b) = b.
Proof.
  induction a as [| x a IH]; simpl; [apply substring_whole | exact IH].
Qed.

Lemma endswith_append (a b : string) : endswith (a ++ b) b = true.
Proof.
  unfold endswith.
  rewrite length_append.
  replace (String.length a + String.length b - String.length b)%nat
    with (String.length a) by lia.
  rewrite substring_skip, String.eqb_refl, andb_true_r.
  apply Nat.leb_le; lia.
Qed.

Lemma digits_of_uint (d : uint) :
  all_digits (NilEmpty.string_of_uint d) = true.
Proof.
  unfold all_digits; induction d; simpl; try reflexivity; exact IHd.
Qed.

Lemma digits_of_str (n : Z) : 0 <= n -> all_digits (str n) = true.
Proof.
  intro Hn; unfold str.
  destruct n as [| p | p]; [reflexivity | | lia].
  simpl.
  unfold NilZero.string_of_uint.
  destruct (Pos.to_uint p); try reflexivity; apply digits_of_uint.
Qed.

Lemma int_of_str (n : Z) : Py.int (str n) = Some n.
Proof.
  unfold Py.int, str.
  rewrite NilZero.isi.
  - simpl; rewrite DecimalZ.of_to; reflexivity.
  - destruct n; simpl; try discriminate.
    intro H; injection H as H; revert H; apply DecimalPos.Unsigned.to_uint_nonnil.
  - destruct n; simpl; try discriminate.
    intro H; injection H as H; revert H; apply DecimalPos.Unsigned.to_uint_nonnil.
Qed.

(** C7.  When the draw of 32 random bits gives [n], the project name is
    ["amli-cloud-tutorial-"] followed by [str(n)] and the bucket name is
    ["gs://amli-cloud-tutorial-bucket-"] followed by [str(n)] and ["/"], so
    it starts with ["gs://"] and ends with ["/"]; for [0 <= n < 2^32],
    [str(n)] is made of decimal digits only and reads back as [n]. *)
Theorem generated_names
    (o : script) (n : Z)
    (Hdraw : o 0%nat (GetRandBits 32) = n)
    (Hrange : 0 <= n < 2 ^ 32) :
  result_of (run_script o GCloud.project_name) =
    Ok ("amli-cloud-tutorial-" ++ str n) /\
  result_of (run_script o Storage.bucket_name) =
    Ok ("gs://amli-cloud-tutorial-bucket-" ++ str n ++ "/") /\
  (forall b : string,
     result_of (run_script o Storage.bucket_name) = Ok b ->
     prefix "gs://" b = true /\ endswith b "/" = true) /\
  all_digits (str n) = true /\
  Py.int (str n) = Some n.
Proof.
  assert (Hbucket : result_of (run_script o Storage.bucket_name) =
                    Ok ("gs://amli-cloud-tutorial-bucket-" ++ str n ++ "/")).
  { unfold run_script, run_from, result_of, Storage.bucket_name.
    cbn -[append str]; unfold play; cbn -[append str].
    rewrite Hdraw, append_assoc; reflexivity. }
  split; [| split; [exact Hbucket | split; [| split]]].
  - unfold run_script, run_from, result_of, GCloud.project_name.
    cbn -[append str]; unfold play; cbn -[append str].
    rewrite Hdraw; reflexivity.
  - intros b Hb; rewrite Hbucket in Hb.
    assert (Heq : b = "gs://amli-cloud-tutorial-bucket-" ++ str n ++ "/")
      by congruence.
    subst b; split.
    + reflexivity.
    + rewrite <- append_assoc; apply endswith_append.
  - apply digits_of_str; lia.
  - apply int_of_str.
Qed.

Lemma generated_names_witness :
  result_of (run_script (drawing 3735928559) GCloud.project_name) =
    Ok "amli-cloud-tutorial-3735928559" /\
  result_of (run_script (drawing 3735928559) Storage.bucket_name) =
    Ok "gs://amli-cloud-tutorial-bucket-3735928559/".
Proof.
  assert (Hrange : 0 <= 3735928559 < 2 ^ 32) by lia.
  assert (Hdraw : drawing 3735928559 0%nat (GetRandBits 32) = 3735928559)
    by reflexivity.
  pose proof (generated_names (drawing 3735928559) Hdraw Hrange) as H.
  split; [exact (proj1 H) | exact (proj1 (proj2 H))].
Defined.

(** ** The checks at the top of the notebooks *)

Lemma ok_runs_on (o : script) (n : nat) (c : cellM unit) :
  result_of (run_from o n c) = Ok tt -> runs_on o n c.
Proof.
  intro Hok; split; [exact Hok |].
  intros A next x y; subst x y.
  unfold run_from in *; rewrite run_bind.
  unfold result_of, log_of, world_of, observed in *.
  destruct (run (play o) c n) as [[log res] w]; simpl in *; subst res.
  destruct (run (play o) next w) as [[log' res'] w']; reflexivity.
Qed.

(** One step of a run against a script. *)
Ltac run_step := cbn -[forallb String.eqb words]; unfold play;
                 cbn -[forallb String.eqb words].

Lemma check_installed_run (o : script) (n : nat) :
  run_from o n GCloud.check_installed =
  if fst (o n (Exec "which gcloud")) =? 0
  then ([(Exec "which gcloud", None)], Ok tt, S n)
  else ([(Exec "which gcloud", None); (Exec "echo Install GCloud.", None)],
        Ok tt, S (S n)).
Proof.
  unfold run_from, GCloud.check_installed, system, sh_or, sh_cmd; run_step.
  destruct (fst (o n (Exec "which gcloud")) =? 0); reflexivity.
Qed.

Lemma check_authorized_run (o : script) (n : nat) :
  run_from o n GCloud.check_authorized =
  if fst (o n (Exec "gcloud auth print-access-token")) =? 0
  then ([(Exec "gcloud auth print-access-token", None)], Ok tt, S n)
  else match words (snd (o (S n) (Exec "gcloud auth login"))) with
       | [] => ([(Exec "gcloud auth print-access-token", None);
                 (Exec "gcloud auth login", None)], Ok tt, S (S n))
       | w :: ws => ([(Exec "gcloud auth print-access-token", None);
                      (Exec "gcloud auth login", None);
                      (Exec (join " " (w :: ws)), None)], Ok tt, S (S (S n)))
       end.
Proof.
  unfold run_from, GCloud.check_authorized, system, sh_or, sh_backquote, sh_cmd;
    run_step.
  destruct (fst (o n (Exec "gcloud auth print-access-token")) =? 0);
    [reflexivity |].
  run_step.
  destruct (words (snd (o (S n) (Exec "gcloud auth login")))); reflexivity.
Qed.

Lemma check_project_run (o : script) (n : nat) :
  run_from o n Storage.check_project =
  if forallb (String.eqb "") (snd (o n (Exec "gcloud config get-value project")))
  then ([(Exec "gcloud config get-value project", None);
         (Exec "echo Select a project.", None)], Ok tt, S (S n))
  else ([(Exec "gcloud config get-value project", None)], Ok tt, S n).
Proof.
  unfold run_from, Storage.check_project, system, sh_or, sh_test_nonempty, sh_cmd;
    run_step.
  destruct (forallb (String.eqb "")
              (snd (o n (Exec "gcloud config get-value project"))));
    reflexivity.
Qed.

Lemma check_installed_ok (o : script) (n : nat) :
  result_of (run_from o n GCloud.check_installed) = Ok tt.
Proof.
  rewrite check_installed_run.
  destruct (fst (o n (Exec "which gcloud")) =? 0); reflexivity.
Qed.

Lemma check_authorized_ok (o : script) (n : nat) :
  result_of (run_from o n GCloud.check_authorized) = Ok tt.
Proof.
  rewrite check_authorized_run.
  destruct (fst (o n (Exec "gcloud auth print-access-token")) =? 0);
    [reflexivity |].
  destruct (words (snd (o (S n) (Exec "gcloud auth login")))); reflexivity.
Qed.

Lemma check_project_ok (o : script) (n : nat) :
  result_of (run_from o n Storage.check_project) = Ok tt.
Proof.
  rewrite check_project_run.
  destruct (forallb (String.eqb "")
              (snd (o n (Exec "gcloud config get-value project"))));
    reflexivity.
Qed.

Lemma setup_ok (o : script) (n : nat) :
  result_of (run_from o n Storage.setup) = Ok tt.
Proof.
  unfold Storage.setup.
  change Storage.check_installed with GCloud.check_installed.
  change Storage.check_authorized with GCloud.check_authorized.
  destruct (ok_runs_on o n _ (check_installed_ok o n)) as [_ Hnext].
  specialize (Hnext unit (GCloud.check_authorized ;; Storage.check_project)).
  cbv zeta in Hnext; unfold observed in Hnext.
  unfold result_of at 1; rewrite Hnext; cbn [fst snd].
  set (m := world_of (run_from o n GCloud.check_installed)).
  destruct (ok_runs_on o m _ (check_authorized_ok o m)) as [_ Hnext'].
  specialize (Hnext' unit Storage.check_project).
  cbv zeta in Hnext'; unfold observed in Hnext'.
  unfold result_of at 1; rewrite Hnext'; cbn [fst snd].
  apply check_project_ok.
Qed.

Lemma presence_line_status (o : script) (n : nat) :
  result_of (run_from o n presence_line) =
  Ok (if fst (o n (Exec "which gcloud")) =? 0 then 0
      else fst (o (S n) (Exec "echo Install GCloud."))).
Proof.
  unfold run_from, result_of, presence_line, sh_or, sh_cmd; run_step.
  destruct (fst (o n (Exec "which gcloud")) =? 0) eqn:Hguard; [| reflexivity].
  apply Z.eqb_eq in Hguard; cbn; rewrite Hguard; reflexivity.
Qed.

Lemma authentication_line_status (o : script) (n : nat) :
  result_of (run_from o n authentication_line) =
  Ok (if fst (o n (Exec "gcloud auth print-access-token")) =? 0 then 0
      else match words (snd (o (S n) (Exec "gcloud auth login"))) with
           | [] => fst (o (S n) (Exec "gcloud auth login"))
           | w :: ws => fst (o (S (S n)) (Exec (join " " (w :: ws))))
           end).
Proof.
  unfold run_from, result_of, authentication_line, sh_or, sh_backquote, sh_cmd;
    run_step.
  destruct (fst (o n (Exec "gcloud auth print-access-token")) =? 0) eqn:Hguard.
  - apply Z.eqb_eq in Hguard; cbn; rewrite Hguard; reflexivity.
  - run_step.
    destruct (words (snd (o (S n) (Exec "gcloud auth login")))); reflexivity.
Qed.

Lemma project_line_status (o : script) (n : nat) :
  result_of (run_from o n project_line) =
  Ok (if forallb (String.eqb "")
           (snd (o n (Exec "gcloud config get-value project")))
      then fst (o (S n) (Exec "echo Select a project."))
      else 0).
Proof.
  unfold run_from, result_of, project_line, sh_or, sh_test_nonempty, sh_cmd;
    run_step.
  destruct (forallb (String.eqb "")
              (snd (o n (Exec "gcloud config get-value project"))));
    reflexivity.
Qed.

(** C8, as stated, fails on the authentication check: where no command
    succeeds (the tool is not installed, say), the line
    [gcloud auth print-access-token || `gcloud auth login`] ends with the
    status of its fallback, 1 and not 0, while the cell ends without an
    exception all the same. *)
Lemma authentication_check_can_fail :
  GCloud.check_authorized = system authentication_line /\
  result_of (run_script (failing []) authentication_line) = Ok 1 /\
  1 <> 0 /\
  result_of (run_script (failing []) GCloud.check_authorized) = Ok tt.
Proof. repeat split; discriminate. Qed.

(** C8, amended.  In every environment and from any point of a run, each
    check ends without an exception, so that the cell after it runs: the
    presence check, the authentication check, the project check, and the
    first cell of the storage notebook that holds the three.  Each check
    starts its guard, and what stands after [||] only when the guard
    ended with a status other than 0: an [echo], or for the authentication
    check the login command, whose output is then run as a command if it
    has any word.  The exit status of the line of a check is 0 when its
    guard succeeds, and otherwise the status of what ran after [||], which
    need not be 0. *)
Theorem checks_never_abort (o : script) (n : nat) :
  (runs_on o n GCloud.check_installed /\
   runs_on o n GCloud.check_authorized /\
   runs_on o n Storage.check_project /\
   runs_on o n Storage.setup) /\
  calls_of (run_from o n GCloud.check_installed) =
    Exec "which gcloud" ::
    (if fst (o n (Exec "which gcloud")) =? 0 then []
     else [Exec "echo Install GCloud."]) /\
  calls_of (run_from o n GCloud.check_authorized) =
    Exec "gcloud auth print-access-token" ::
    (if fst (o n (Exec "gcloud auth print-access-token")) =? 0 then []
     else Exec "gcloud auth login" ::
          match words (snd (o (S n) (Exec "gcloud auth login"))) with
          | [] => []
          | w :: ws => [Exec (join " " (w :: ws))]
          end) /\
  calls_of (run_from o n Storage.check_project) =
    Exec "gcloud config get-value project" ::
    (if forallb (String.eqb "")
          (snd (o n (Exec "gcloud config get-value project")))
     then [Exec "echo Select a project."]
     else []) /\
  (GCloud.check_installed = system presence_line /\
   GCloud.check_authorized = system authentication_line /\
   Storage.check_project = system project_line /\
   Storage.setup =
     (system presence_line ;; system authentication_line ;;
      system project_line)) /\
  result_of (run_from o n presence_line) =
    Ok (if fst (o n (Exec "which gcloud")) =? 0 then 0
        else fst (o (S n) (Exec "echo Install GCloud."))) /\
  result_of (run_from o n authentication_line) =
    Ok (if fst (o n (Exec "gcloud auth print-access-token")) =? 0 then 0
        else match words (snd (o (S n) (Exec "gcloud auth login"))) with
             | [] => fst (o (S n) (Exec "gcloud auth login"))
             | w :: ws => fst (o (S (S n)) (Exec (join " " (w :: ws))))
             end) /\
  result_of (run_from o n project_line) =
    Ok (if forallb (String.eqb "")
             (snd (o n (Exec "gcloud config get-value project")))
        then fst (o (S n) (Exec "echo Select a project."))
        else 0).
Proof.
  split; [| split; [| split; [| split; [| split; [| split; [| split]]]]]].
  - split; [| split; [| split]]; apply ok_runs_on.
    + apply check_installed_ok.
    + apply check_authorized_ok.
    + apply check_project_ok.
    + apply setup_ok.
  - rewrite check_installed_run.
    destruct (fst (o n (Exec "which gcloud")) =? 0); reflexivity.
  - rewrite check_authorized_run.
    destruct (fst (o n (Exec "gcloud auth print-access-token")) =? 0);
      [reflexivity |].
    destruct (words (snd (o (S n) (Exec "gcloud auth login")))); reflexivity.
  - rewrite check_project_run.
    destruct (forallb (String.eqb "")
                (snd (o n (Exec "gcloud config get-value project"))));
      reflexivity.
  - repeat split.
  - apply presence_line_status.
  - apply authentication_line_status.
  - apply project_line_status.
Qed.

(** ** The bucket for later work *)

Lemma contains_In (xs : list string) (x : string) :
  Storage.contains xs x = true <-> In x xs.
Proof.
  unfold Storage.contains; rewrite existsb_exists; split.
  - intros [y [Hy Heq]]; apply String.eqb_eq in Heq; subst y; exact Hy.
  - intro H; exists x; split; [exact H | apply String.eqb_refl].
Qed.

(** C9.  In any world, the cell starts [gsutil mb] for the fixed name
    exactly when that name is not one of the lines that the [gsutil ls]
    before it printed, and it starts no other command than the listing and
    that one.  When the name is listed, the calls of the cell are the two
    listings, and in a world where listing changes nothing the world after
    the cell is the world before it. *)
Theorem shared_bucket_guarded
    (W : Type) (handle : forall ev : event, W -> answer ev * W) (w : W) :
  let lines := snd (fst (handle (Exec "gsutil ls") w)) in
  let x := run handle Storage.shared_bucket w in
  (In (Exec "gsutil mb gs://amli-cloud-tutorial-bucket/") (calls_of x) <->
   ~ In Storage.bucket lines) /\
  (forall ev, In ev (calls_of x) ->
     ev = Exec "gsutil ls" \/
     ev = Exec "gsutil mb gs://amli-cloud-tutorial-bucket/") /\
  (In Storage.bucket lines ->
   calls_of x = [Exec "gsutil ls"; Exec "gsutil ls"] /\
   ((forall w', snd (handle (Exec "gsutil ls") w') = w') -> world_of x = w)).
Proof.
  intros lines x; subst lines x.
  unfold Storage.shared_bucket, getoutput, system, sh_cmd, calls_of, log_of,
    world_of.
  cbn -[Storage.contains Storage.bucket].
  destruct (handle (Exec "gsutil ls") w) as [[st lines] w1] eqn:Hls.
  cbn -[Storage.contains Storage.bucket].
  destruct (Storage.contains lines Storage.bucket) eqn:Hin; cbn.
  - apply contains_In in Hin.
    destruct (handle (Exec "gsutil ls") w1) as [[st2 lines2] w2] eqn:Hls2.
    cbn.
    split; [| split].
    + split.
      * intros [H | [H | []]]; discriminate.
      * intro H; contradiction.
    + intros ev [<- | [<- | []]]; left; reflexivity.
    + intros _; split; [reflexivity |].
      intro Hro.
      pose proof (Hro w) as H1; rewrite Hls in H1; simpl in H1; subst w1.
      pose proof (Hro w) as H2; rewrite Hls2 in H2; simpl in H2; exact H2.
  - assert (Hnot : ~ In Storage.bucket lines).
    { intro H; apply contains_In in H; rewrite H in Hin; discriminate. }
    match goal with
    | |- context [handle (Exec ?argv) w1] =>
        destruct (handle (Exec argv) w1) as [[st1 lines1] w2]
    end.
    cbn.
    destruct (handle (Exec "gsutil ls") w2) as [[st2 lines2] w3].
    cbn.
    split; [| split].
    + split; [intros _; exact Hnot | intros _; right; left; reflexivity].
    + intros ev [<- | [<- | [<- | []]]];
        [left | right | left]; reflexivity.
    + intro H; contradiction.
Qed.

Lemma shared_bucket_guarded_witness :
  let account := ["gs://some-other-bucket/"; "gs://amli-cloud-tutorial-bucket/"] in
  world_of (run gsutil Storage.shared_bucket account) = account.
Proof.
  intro account.
  refine (proj2 (proj2 (proj2 (@shared_bucket_guarded _ gsutil account)) _) _).
  - cbn; right; left; reflexivity.
  - intro w'; reflexivity.
Defined.

(** In the storage account above, the first run of the cell makes the
    bucket and the second run finds it. *)
Example shared_bucket_twice :
  let first := run gsutil Storage.shared_bucket ["gs://some-other-bucket/"] in
  let second := run gsutil Storage.shared_bucket (world_of first) in
  calls_of first =
    [Exec "gsutil ls"; Exec "gsutil mb gs://amli-cloud-tutorial-bucket/";
     Exec "gsutil ls"] /\
  calls_of second = [Exec "gsutil ls"; Exec "gsutil ls"] /\
  world_of second = world_of first.
Proof. repeat split. Qed.

(** ** What the notebooks do with the output of a command *)

Lemma raised_mute (ev : event) (r : answer ev) :
  raised ev (mute ev r) = raised ev r.
Proof. destruct ev; reflexivity. Qed.

Lemma ignores_output_run (A : Type) (c : cellM A) (o1 o2 : script) :
  ignores_output c ->
  same_but_output o1 o2 ->
  forall n : nat, run_from o1 n c = run_from o2 n c.
Proof.
  intros Hc Hsame; induction c as [a | e | ev k IH]; intro n.
  - reflexivity.
  - reflexivity.
  - destruct (Hc (o1 n ev)) as [H1 Hk].
    destruct (Hc (o2 n ev)) as [H2 _].
    assert (Hk12 : k (o1 n ev) = k (o2 n ev)).
    { transitivity (k (mute ev (o1 n ev))); [exact H1 |].
      rewrite (Hsame n ev); symmetry; exact H2. }
    assert (Hr : raised ev (o1 n ev) = raised ev (o2 n ev)).
    { rewrite <- raised_mute, (Hsame n ev), raised_mute; reflexivity. }
    unfold run_from in *; simpl.
    change (play o1 ev n) with (o1 n ev, S n).
    change (play o2 ev n) with (o2 n ev, S n).
    rewrite (IH (o1 n ev) Hk (S n)), Hk12, Hr; reflexivity.
Qed.

Lemma ignores_output_blind (A : Type) (c : cellM A) :
  ignores_output c -> output_blind (Cell c).
Proof.
  intros Hc o1 o2 Hsame; unfold run_script; simpl.
  rewrite (ignores_output_run c Hc Hsame 0); reflexivity.
Qed.

Lemma ignores_output_bind (A B : Type) (c : cellM A) (f : A -> cellM B) :
  ignores_output c ->
  (forall a, ignores_output (f a)) ->
  ignores_output (bind c f).
Proof.
  intros Hc Hf; induction c as [a | e | ev k IH]; simpl.
  - apply Hf.
  - exact I.
  - intro r; destruct (Hc r) as [Heq Hk]; split.
    + rewrite Heq at 1; reflexivity.
    + apply IH; exact Hk.
Qed.

Lemma system_cmd_ignores_output (argv : string) :
  ignores_output (system (sh_cmd argv)).
Proof. intro r; split; [reflexivity | exact I]. Qed.

Lemma print_each_ignores_output (names : list string) :
  ignores_output
    (for_each (fun notebook => call (PyPrint (PStr ("- " ++ notebook)))) names).
Proof.
  induction names as [| x rest IH]; [exact I |].
  cbn [for_each].
  apply ignores_output_bind; [intro r; split; [reflexivity | exact I] |].
  intro u; apply ignores_output_bind; [exact IH | intro us; exact I].
Qed.

Lemma check_installed_ignores_output :
  ignores_output GCloud.check_installed.
Proof.
  intro r; split; [reflexivity |].
  cbn; destruct (fst r =? 0); [exact I |].
  intro r'; split; [reflexivity | exact I].
Qed.

Lemma notebooks_ignores_output : ignores_output Storage.notebooks.
Proof.
  intro r; split; [reflexivity |].
  destruct r as [names | e]; [| exact I].
  cbn -[for_each append endswith].
  apply ignores_output_bind; [apply print_each_ignores_output |].
  intro us; exact I.
Qed.

Lemma same_but_output_printing (lines lines' : list string) :
  same_but_output (printing lines) (printing lines').
Proof. intros n ev; destruct ev; reflexivity. Qed.

(** C2, as stated, fails on the cell that makes the bucket for later
    work: in two worlds that differ only in what [gsutil ls] prints, the
    cell starts [gsutil mb] in one and not in the other. *)
Lemma shared_bucket_reads_listing :
  same_but_output (printing ["gs://amli-cloud-tutorial-bucket/"]) (printing []) /\
  calls_of (run_script (printing ["gs://amli-cloud-tutorial-bucket/"])
                       Storage.shared_bucket) =
    [Exec "gsutil ls"; Exec "gsutil ls"] /\
  calls_of (run_script (printing []) Storage.shared_bucket) =
    [Exec "gsutil ls"; Exec "gsutil mb gs://amli-cloud-tutorial-bucket/";
     Exec "gsutil ls"] /\
  ~ output_blind (Cell Storage.shared_bucket).
Proof.
  split; [apply same_but_output_printing |].
  split; [reflexivity |].
  split; [reflexivity |].
  intro Hblind.
  specialize (Hblind (printing ["gs://amli-cloud-tutorial-bucket/"]) (printing [])
                     (same_but_output_printing _ _)).
  vm_compute in Hblind; discriminate.
Qed.

(** The two checks that substitute the output of a command are in the
    same case: what [gcloud auth login] prints is run as a command, and
    the project check echoes or not by what [gcloud config get-value]
    prints. *)
Lemma substituting_checks_read_output :
  ~ output_blind (Cell GCloud.check_authorized) /\
  ~ output_blind (Cell Storage.check_project) /\
  ~ output_blind (Cell Storage.setup).
Proof.
  assert (Hsame : forall l l', same_but_output (failing l) (failing l'))
    by (intros l l' n ev; destruct ev; reflexivity).
  split; [| split]; intro Hblind.
  - specialize (Hblind (failing ["gcloud init"]) (failing []) (Hsame _ _)).
    vm_compute in Hblind; discriminate.
  - specialize (Hblind (failing ["my-project"]) (failing []) (Hsame _ _)).
    vm_compute in Hblind; discriminate.
  - specialize (Hblind (failing ["my-project"]) (failing []) (Hsame _ _)).
    vm_compute in Hblind; discriminate.
Qed.

(** C2, amended.  Apart from the cell that makes the bucket for later
    work and the checks that substitute the output of a command, every
    cell of the two notebooks starts the same calls and leaves the same
    values whatever the commands print: the output only goes to the
    console. *)
Theorem output_only_displayed (pn bn b : string) :
  Forall output_blind
    (Cell GCloud.check_installed ::
     GCloud.walkthrough pn ++ Storage.walkthrough bn b)%list.
Proof.
  repeat (apply Forall_cons || apply Forall_nil || cbn [app GCloud.walkthrough Storage.walkthrough]);
    apply ignores_output_blind;
    try apply system_cmd_ignores_output;
    try apply check_installed_ignores_output;
    try apply notebooks_ignores_output.
  - intro r; split; [reflexivity | exact I].
  - intro r; split; [reflexivity | exact I].
  - intro r; split; [reflexivity | exact I].
Qed.

(** ** Exceptions of the library calls *)

Lemma uncaught_stops (A : Type) (c : cellM A)
    (W : Type) (handle : forall ev : event, W -> answer ev * W) (w : W) :
  uncaught c -> stops_at_raise (run handle c w).
Proof.
  revert w; induction c as [a | e | ev k IH]; intros w Hc before after ev' e' Hlog.
  - destruct before; discriminate.
  - destruct before; discriminate.
  - unfold log_of, result_of in *; simpl in *.
    destruct (handle ev w) as [r w1].
    specialize (Hc r); specialize (IH r w1).
    destruct (run handle (k r) w1) as [[log res] w2] eqn:Hrun; simpl in *.
    destruct before as [| first before]; simpl in Hlog.
    + injection Hlog as Hev Hraised Hafter; subst ev' after.
      rewrite Hraised in Hc; rewrite Hc in Hrun; simpl in Hrun.
      injection Hrun as <- <- _; split; reflexivity.
    + injection Hlog as _ Hrest.
      destruct (raised ev r) as [e0 |].
      * rewrite Hc in Hrun; simpl in Hrun; injection Hrun as <- _ _.
        destruct before; discriminate.
      * apply (IH Hc before after ev' e'); exact Hrest.
Qed.

Lemma request_uncaught (k : string) : uncaught (NYT.request k).
Proof.
  intros [response | e]; cbn -[append]; [| reflexivity].
  intros [response_json | e]; cbn -[append]; [exact I | reflexivity].
Qed.

Lemma fetch_article_uncaught (response_json : pyval) :
  uncaught (NYT.fetch_article response_json).
Proof.
  unfold NYT.fetch_article.
  destruct (getitem response_json "results") as [results | e]; [| exact I].
  cbn [lift bind].
  destruct (getindex results 1) as [second | e]; [| exact I].
  cbn [lift bind].
  destruct (getitem second "url") as [url | e]; [| exact I].
  cbn [lift bind].
  intros [response | e]; cbn; [exact I | reflexivity].
Qed.

Lemma parse_uncaught (response : response) : uncaught (NYT.parse response).
Proof.
  intros [soup | e]; cbn; [| reflexivity].
  intros [pretty | e]; cbn; [| reflexivity].
  intros []; exact I.
Qed.

Lemma article_text_uncaught (soup : soup) : uncaught (NYT.article_text soup).
Proof.
  intros [[t |] | e]; cbn; [| exact I | reflexivity].
  intros [text | e]; cbn; [exact I | reflexivity].
Qed.

Lemma entities_uncaught (analysis : string) : uncaught (NYT.entities analysis).
Proof.
  intros [analysis_json | e]; cbn -[getitem]; [| reflexivity].
  destruct (getitem analysis_json "entities"); exact I.
Qed.

(** C3.  In the cells that request, decode and parse, in every
    environment: a call that raises is the last call of the cell, and the
    cell ends with the very exception of that call.  The cells are the
    listing request with its [json.loads], the request of the article,
    the BeautifulSoup parse, the search of the body with [get_text], and
    the decoding of the analysis output. *)
Theorem library_exceptions_propagate
    (o : script) (k : string) (response_json : pyval) (response : response)
    (soup : soup) (analysis : string) :
  stops_at_raise (run_script o (NYT.request k)) /\
  stops_at_raise (run_script o (NYT.fetch_article response_json)) /\
  stops_at_raise (run_script o (NYT.parse response)) /\
  stops_at_raise (run_script o (NYT.article_text soup)) /\
  stops_at_raise (run_script o (NYT.entities analysis)).
Proof.
  unfold run_script, run_from.
  split; [| split; [| split; [| split]]]; apply uncaught_stops.
  - apply request_uncaught.
  - apply fetch_article_uncaught.
  - apply parse_uncaught.
  - apply article_text_uncaught.
  - apply entities_uncaught.
Qed.

Lemma library_exceptions_propagate_witness :
  result_of (run_script offline (NYT.request "0123456789abcdef")) =
  Err (Exn "ConnectionError" "Max retries exceeded").
Proof.
  refine (proj2 (proj1
    (@library_exceptions_propagate offline "0123456789abcdef" PNone
       (Response 200 "") 0%nat "")
    [] []
    (HttpGet (PStr (NYT.endpoint ++ "?api-key=0123456789abcdef")) [])
    (Exn "ConnectionError" "Max retries exceeded") _)).
  reflexivity.
Defined.

(** ** The listing of distinct contents *)

Lemma lookup_none (k : string) (r : Pandas.record) :
  lookup k r = None <-> ~ In k (map fst r).
Proof.
  induction r as [| [k' v] rest IH]; simpl.
  - split; [intros _ [] | reflexivity].
  - destruct (String.eqb k k') eqn:Heq.
    + apply String.eqb_eq in Heq; subst k'.
      split; [discriminate | intro H; exfalso; apply H; left; reflexivity].
    + apply String.eqb_neq in Heq.
      rewrite IH; split.
      * intros H [H' | H']; [apply Heq; symmetry; exact H' | exact (H H')].
      * intros H H'; apply H; right; exact H'.
Qed.

Lemma has_label_In (labels : list string) (l : string) :
  Pandas.has_label labels l = true <-> In l labels.
Proof.
  unfold Pandas.has_label; rewrite existsb_exists; split.
  - intros [y [Hy Heq]]; apply String.eqb_eq in Heq; subst y; exact Hy.
  - intro H; exists l; split; [exact H | apply String.eqb_refl].
Qed.

Lemma distinct_In (keys seen : list string) (l : string) :
  In l (Pandas.distinct String.eqb seen keys) <-> In l keys /\ ~ In l seen.
Proof.
  revert seen; induction keys as [| k rest IH]; intro seen; simpl.
  - split; [intros [] | intros [[] _]].
  - destruct (existsb (String.eqb k) seen) eqn:Hseen.
    + apply (has_label_In seen k) in Hseen.
      rewrite IH; split.
      * intros [H1 H2]; split; [right; exact H1 | exact H2].
      * intros [[H1 | H1] H2]; [subst k; contradiction | split; assumption].
    + assert (Hnot : ~ In k seen).
      { intro H; apply has_label_In in H; unfold Pandas.has_label in H.
        rewrite H in Hseen; discriminate. }
      simpl; rewrite IH; simpl; split.
      * intros [H | [H1 H2]].
        -- subst l; split; [left; reflexivity | exact Hnot].
        -- split; [right; exact H1 | intro H; apply H2; right; exact H].
      * intros [[H | H] H2].
        -- left; exact H.
        -- destruct (string_dec k l) as [Hkl | Hkl]; [left; exact Hkl |].
           right; split; [exact H |].
           intros [H' | H']; [exact (Hkl H') | exact (H2 H')].
Qed.

Lemma content_column_exists (texts : list Pandas.record) :
  Pandas.has_label (Pandas.columns (Pandas.DataFrame texts)) "content" = true <->
  Exists has_content texts.
Proof.
  rewrite has_label_In; unfold Pandas.DataFrame; simpl.
  rewrite distinct_In, in_flat_map, Exists_exists.
  split.
  - intros [[r [Hr Hk]] _]; exists r; split; [exact Hr |].
    intro Hnone; apply lookup_none in Hnone; exact (Hnone Hk).
  - intros [r [Hr Hc]]; split; [| intros []].
    exists r; split; [exact Hr |].
    destruct (in_dec string_dec "content" (map fst r)) as [H | H];
      [exact H | apply lookup_none in H; contradiction].
Qed.

Lemma distinct_map (A B : Type) (f : A -> B)
    (eqa : A -> A -> bool) (eqb : B -> B -> bool) :
  (forall x y, eqb (f x) (f y) = eqa x y) ->
  forall seen xs,
    Pandas.distinct eqb (map f seen) (map f xs) =
    map f (Pandas.distinct eqa seen xs).
Proof.
  intros Hf seen xs; revert seen; induction xs as [| x rest IH]; intro seen; simpl.
  - reflexivity.
  - assert (Hex : existsb (eqb (f x)) (map f seen) = existsb (eqa x) seen).
    { clear IH; induction seen as [| s seen IHs]; simpl;
        [reflexivity | rewrite Hf, IHs; reflexivity]. }
    rewrite Hex; destruct (existsb (eqa x) seen).
    + apply IH.
    + simpl; f_equal; apply (IH (x :: seen)).
Qed.

Lemma distinct_NoDup (xs seen : list string) :
  NoDup (Pandas.distinct String.eqb seen xs).
Proof.
  revert seen; induction xs as [| x rest IH]; intro seen; simpl.
  - constructor.
  - destruct (existsb (String.eqb x) seen); [apply IH |].
    constructor; [| apply IH].
    rewrite distinct_In; intros [_ H]; apply H; left; reflexivity.
Qed.

Lemma unique_listing_unfold (texts : list Pandas.record) :
  unique_listing texts =
  if Pandas.has_label (Pandas.columns (Pandas.DataFrame texts)) "content"
  then lift (Pandas.unique (map (Pandas.at_label "content") texts))
  else Raise (KeyError "content").
Proof.
  unfold unique_listing, NYT.df, NYT.unique_content, Pandas.column.
  cbn [bind].
  destruct (Pandas.has_label _ "content"); reflexivity.
Qed.

Lemma no_content_anywhere (texts : list Pandas.record) :
  ~ Exists has_content texts <->
  Forall (fun r => lookup "content" r = None) texts.
Proof.
  rewrite <- Forall_Exists_neg; unfold has_content.
  split; intro H; eapply Forall_impl; try exact H; intros r Hr; cbv beta in *.
  - destruct (lookup "content" r) as [v |]; [| reflexivity].
    exfalso; apply Hr; discriminate.
  - intro Hnot; exact (Hnot Hr).
Qed.

(** C10, as stated, fails in both directions.  With one span that has a
    content and one that has none, the step succeeds, and lists a missing
    value after the content; with no span at all every span has a content,
    and the step ends with the key error. *)
Lemma unique_listing_needs_one_content :
  (unique_listing texts_missing_content =
     Ret [Pandas.Obj (PStr "Google"); Pandas.NaN] /\
   ~ Forall has_content texts_missing_content) /\
  (Forall has_content [] /\
   unique_listing [] = Raise (KeyError "content")).
Proof.
  split; split.
  - reflexivity.
  - intro H; inversion H as [| r rest _ Hrest]; subst.
    inversion Hrest as [| r' rest' Hr' _]; subst.
    apply Hr'; reflexivity.
  - constructor.
  - reflexivity.
Qed.

(** C10, amended.  For [texts] a list of dicts: the step ends with
    [KeyError] on ["content"] exactly when no dict has that key, which
    includes the list without any dict; when some dict has the key and
    every content present is a string, it returns the distinct cells of
    the column in order of first occurrence, the missing value standing
    for the dicts without the key; so when the list is not empty and every
    dict has a string content, it returns the distinct content strings in
    order of first occurrence, each once. *)
Theorem unique_listing_of_records (texts : list Pandas.record) :
  (unique_listing texts = Raise (KeyError "content") <->
   Forall (fun r => lookup "content" r = None) texts) /\
  (Exists has_content texts ->
   Forall (fun r => lookup "content" r = None \/
                    exists s, lookup "content" r = Some (PStr s)) texts ->
   unique_listing texts =
     Ret (Pandas.distinct Pandas.same []
            (map (Pandas.at_label "content") texts))) /\
  (forall strs : list string,
     texts <> [] ->
     Forall2 (fun r s => lookup "content" r = Some (PStr s)) texts strs ->
     unique_listing texts =
       Ret (map (fun s => Pandas.Obj (PStr s)) (first_occurrences strs)) /\
     NoDup (first_occurrences strs) /\
     (forall s, In s (first_occurrences strs) <-> In s strs)).
Proof.
  rewrite unique_listing_unfold.
  pose proof (content_column_exists texts) as Hcol.
  split; [| split].
  - rewrite <- no_content_anywhere, <- Hcol.
    destruct (Pandas.has_label _ "content").
    + split; [| intro H; exfalso; apply H; reflexivity].
      unfold Pandas.unique.
      destruct (forallb Pandas.hashable _); discriminate.
    + split; [intros _ H; discriminate | reflexivity].
  - intros Hex Hstr.
    apply Hcol in Hex; rewrite Hex.
    unfold Pandas.unique.
    assert (Hhash : forallb Pandas.hashable
                      (map (Pandas.at_label "content") texts) = true).
    { apply forallb_forall; intros c Hc.
      apply in_map_iff in Hc; destruct Hc as [r [<- Hr]].
      rewrite Forall_forall in Hstr.
      unfold Pandas.at_label.
      destruct (Hstr r Hr) as [-> | [s ->]]; reflexivity. }
    rewrite Hhash; reflexivity.
  - intros strs Hne Hall.
    assert (Hex : Exists has_content texts).
    { destruct Hall as [| r s rest srest Hr _]; [contradiction |].
      left; unfold has_content; rewrite Hr; discriminate. }
    assert (Hcolumn : map (Pandas.at_label "content") texts =
                      map (fun s => Pandas.Obj (PStr s)) strs).
    { clear - Hall; induction Hall as [| r s rest srest Hr _ IH]; simpl.
      - reflexivity.
      - unfold Pandas.at_label at 1; rewrite Hr, IH; reflexivity. }
    apply Hcol in Hex; rewrite Hex, Hcolumn.
    unfold Pandas.unique.
    assert (Hhash : forallb Pandas.hashable
                      (map (fun s => Pandas.Obj (PStr s)) strs) = true).
    { apply forallb_forall; intros c Hc.
      apply in_map_iff in Hc; destruct Hc as [s [<- _]]; reflexivity. }
    rewrite Hhash.
    split; [| split].
    + cbn [lift]; f_equal.
      apply (distinct_map (fun s => Pandas.Obj (PStr s)) String.eqb Pandas.same
               (fun x y => eq_refl) [] strs).
    + apply distinct_NoDup.
    + intro s; unfold first_occurrences; rewrite distinct_In.
      split; [intros [H _]; exact H | intro H; split; [exact H | intros []]].
Qed.

Lemma unique_listing_of_records_witness :
  unique_listing sample_texts =
  Ret [Pandas.Obj (PStr "Google"); Pandas.Obj (PStr "Mountain View")].
Proof.
  refine (proj1 (proj2 (proj2 (unique_listing_of_records sample_texts))
                   ["Google"; "Mountain View"; "Mountain View"] _ _)).
  - discriminate.
  - repeat constructor.
Defined.

(** * Further properties of the notebooks *)

(** ** Runs of cells in a row *)

Lemma run_from_bind (A B : Type) (o : script) (n : nat)
    (c : cellM A) (f : A -> cellM B) :
  run_from o n (bind c f) =
  match run_from o n c with
  | (log, Ok a, m) =>
      match run_from o m (f a) with
      | (log', res, m') => ((log ++ log')%list, res, m')
      end
  | (log, Err e, m) => (log, Err e, m)
  end.
Proof. unfold run_from; apply run_bind. Qed.

Lemma run_system_cmd (o : script) (n : nat) (argv : string) :
  run_from o n (system (sh_cmd argv)) = ([(Exec argv, None)], Ok tt, S n).
Proof. reflexivity. Qed.

(** X1.  From any point of a run and whatever the commands answer, the
    project that the notebook creates is the one it describes and the one
    it deletes: the three commands carry the name made from the one draw,
    and the cells end without an exception. *)
Theorem project_created_is_deleted (o : script) (n : nat) :
  let name := "amli-cloud-tutorial-" ++ str (o n (GetRandBits 32)) in
  calls_of (run_from o n project_lifecycle) =
    [GetRandBits 32;
     Exec ("gcloud projects create " ++ name);
     Exec "gcloud projects list";
     Exec ("gcloud projects describe " ++ name);
     Exec ("gcloud projects delete -q " ++ name);
     Exec "gcloud projects list"] /\
  result_of (run_from o n project_lifecycle) = Ok name.
Proof. split; reflexivity. Qed.

(** X2.  From any point of a run and whatever the commands answer, the
    bucket that the notebook makes is the one it removes: [gsutil mb] and
    [gsutil rb] carry the name made from the one draw, which starts with
    ["gs://"] and ends with ["/"]. *)
Theorem bucket_made_is_removed (o : script) (n : nat) :
  let name := "gs://amli-cloud-tutorial-bucket-"
              ++ str (o n (GetRandBits 32)) ++ "/" in
  calls_of (run_from o n bucket_lifecycle) =
    [GetRandBits 32;
     Exec ("gsutil mb " ++ name);
     Exec "gsutil ls";
     Exec ("gsutil rb " ++ name);
     Exec "gsutil ls"] /\
  result_of (run_from o n bucket_lifecycle) = Ok name /\
  prefix "gs://" name = true /\
  endswith name "/" = true.
Proof.
  intro name; subst name.
  unfold run_from, calls_of, log_of, result_of, bucket_lifecycle,
    Storage.bucket_name, Storage.gsutil_mb, Storage.gsutil_rb,
    Storage.gsutil_ls, system, sh_cmd.
  cbn -[append str]; unfold play; cbn -[append str].
  rewrite !append_assoc.
  repeat split.
  rewrite <- append_assoc; apply endswith_append.
Qed.

(** ** The listing of the notebooks *)

Lemma substring_split (s : string) (k : nat) :
  (k <= String.length s)%nat ->
  s = substring 0 k s ++ substring k (String.length s - k) s.
Proof.
  revert k; induction s as [| c s IH]; intros k Hk; simpl in *.
  - destruct k; [reflexivity | lia].
  - destruct k as [| k]; simpl.
    + rewrite substring_whole; reflexivity.
    + rewrite <- (IH k) by lia; reflexivity.
Qed.

Lemma endswith_iff (s suffix : string) :
  endswith s suffix = true <-> exists stem, s = stem ++ suffix.
Proof.
  split.
  - unfold endswith; intro H; apply andb_true_iff in H; destruct H as [Hlen Heq].
    apply Nat.leb_le in Hlen; apply String.eqb_eq in Heq.
    exists (substring 0 (String.length s - String.length suffix) s).
    assert (Hs := @substring_split s (String.length s - String.length suffix)%nat).
    replace (String.length s - (String.length s - String.length suffix))%nat
      with (String.length suffix) in Hs by lia.
    rewrite Heq in Hs; apply Hs; lia.
  - intros [stem ->]; apply endswith_append.
Qed.

Lemma print_loop_run (o : script) (names : list string) (n : nat) :
  exists us : list unit,
    run_from o n
      (for_each (fun notebook => call (PyPrint (PStr ("- " ++ notebook)))) names) =
    (map (fun notebook => (PyPrint (PStr ("- " ++ notebook)), None)) names,
     Ok us, (n + List.length names)%nat).
Proof.
  revert n; induction names as [| x rest IH]; intro n.
  - exists []; unfold run_from; simpl; rewrite Nat.add_0_r; reflexivity.
  - destruct (IH (S n)) as [us Hus].
    exists (o n (PyPrint (PStr ("- " ++ x))) :: us).
    cbn [for_each]; rewrite run_from_bind.
    change (run_from o n (call (PyPrint (PStr ("- " ++ x)))))
      with ([(PyPrint (PStr ("- " ++ x)), @None exn)],
            Ok (o n (PyPrint (PStr ("- " ++ x)))), S n).
    cbv iota beta; rewrite run_from_bind, Hus; cbn [run_from run].
    replace (S n + Datatypes.length rest)%nat
      with (n + Datatypes.length (x :: rest))%nat by (simpl; lia).
    rewrite app_nil_r; reflexivity.
Qed.

Lemma notebooks_run (o : script) (n : nat) :
  run_from o n Storage.notebooks =
  match o n (ListDir ".") with
  | Ok names =>
      let found := filter (fun nb => endswith nb ".ipynb") names in
      ((ListDir ".", None) ::
       map (fun nb => (PyPrint (PStr ("- " ++ nb)), None)) found,
       Ok found, (S n + List.length found)%nat)
  | Err e => ([(ListDir ".", Some e)], Err e, S n)
  end.
Proof.
  unfold Storage.notebooks.
  rewrite run_from_bind, run_from_bind.
  change (run_from o n (call (ListDir ".")))
    with ([(ListDir ".", raised (ListDir ".") (o n (ListDir ".")))],
          Ok (o n (ListDir ".")), S n).
  cbv iota beta.
  destruct (o n (ListDir ".")) as [names | e]; cbn [lift run_from run];
    [| reflexivity].
  cbv zeta.
  set (found := filter (fun nb => endswith nb ".ipynb") names).
  rewrite run_from_bind.
  destruct (print_loop_run o found (S n)) as [us Hus]; rewrite Hus.
  cbn [run_from run]; rewrite !app_nil_r; reflexivity.
Qed.

(** X3.  The cell that lists the notebooks asks for the directory once.
    When the directory is read, it leaves the entries that end with
    [".ipynb"], in the order of the directory and as often as they occur,
    and prints one line ["- "] plus the name for each of them, in that
    order; an entry is listed exactly when it is some stem followed by
    [".ipynb"], the bare [".ipynb"] included.  When the directory cannot
    be read, the exception ends the cell and nothing is printed. *)
Theorem notebooks_listed (o : script) (n : nat) :
  match o n (ListDir ".") with
  | Ok names =>
      let found := filter (fun nb => endswith nb ".ipynb") names in
      result_of (run_from o n Storage.notebooks) = Ok found /\
      calls_of (run_from o n Storage.notebooks) =
        ListDir "." :: map (fun nb => PyPrint (PStr ("- " ++ nb))) found /\
      (forall nb, In nb found <->
                  In nb names /\ exists stem, nb = stem ++ ".ipynb")
  | Err e =>
      result_of (run_from o n Storage.notebooks) = Err e /\
      calls_of (run_from o n Storage.notebooks) = [ListDir "."]
  end.
Proof.
  rewrite notebooks_run.
  destruct (o n (ListDir ".")) as [names | e]; [| split; reflexivity].
  cbv zeta; unfold result_of, calls_of, log_of; cbn [fst snd].
  split; [reflexivity | split].
  - cbn [map fst]; rewrite map_map; reflexivity.
  - intro nb; rewrite filter_In, endswith_iff; reflexivity.
Qed.

(** ** The loop over the results *)

Lemma print_urls_loop (o : script) (good urls tail : list pyval) :
  Forall2 (fun r u => getitem r "url" = Ok u) good urls ->
  forall n : nat,
  exists us : list unit,
    run_from o n
      (for_each (fun result =>
                   u <- lift (getitem result "url") ;; call (PyPrint u))
                (good ++ tail)%list) =
    match run_from o (n + List.length good)%nat
            (for_each (fun result =>
                         u <- lift (getitem result "url") ;; call (PyPrint u))
                      tail) with
    | (log, res, m) =>
        ((map (fun u => (PyPrint u, @None exn)) urls ++ log)%list,
         match res with
         | Ok vs => Ok (us ++ vs)%list
         | Err e => Err e
         end, m)
    end.
Proof.
  induction 1 as [| r u good urls Hr _ IH]; intro n.
  - exists []; simpl; rewrite Nat.add_0_r.
    destruct (run_from o n _) as [[log [vs | e]] m]; reflexivity.
  - destruct (IH (S n)) as [us Hus].
    exists (o n (PyPrint u) :: us).
    change ((r :: good) ++ tail)%list with (r :: (good ++ tail))%list.
    simpl for_each; rewrite Hr; cbn [lift bind].
    rewrite run_from_bind.
    change (run_from o n (call (PyPrint u)))
      with ([(PyPrint u, @None exn)], Ok (o n (PyPrint u)), S n).
    cbv iota beta; rewrite run_from_bind, Hus.
    replace (n + Datatypes.length (r :: good))%nat
      with (S n + Datatypes.length good)%nat by (simpl; lia).
    destruct (run_from o (S n + Datatypes.length good) _) as [[log [vs | e]] m];
      cbn [run_from run map app]; rewrite ?app_nil_r; reflexivity.
Qed.

(** X4.  The loop that prints the addresses of the results prints them
    one by one, in order.  When every result has a ["url"], they are all
    printed and the cell ends well; when a result lacks it, the
    addresses before it have been printed, none after it is, and the cell
    ends with the exception of that subscript. *)
Theorem urls_printed_until_missing
    (o : script) (n : nat) (response_json results : pyval)
    (items : list pyval)
    (Hresults : getitem response_json "results" = Ok results)
    (Hitems : iter results = Ok items) :
  (forall urls,
     Forall2 (fun r u => getitem r "url" = Ok u) items urls ->
     calls_of (run_from o n (NYT.print_urls response_json)) = map PyPrint urls /\
     result_of (run_from o n (NYT.print_urls response_json)) = Ok tt) /\
  (forall good bad rest urls e,
     items = (good ++ bad :: rest)%list ->
     Forall2 (fun r u => getitem r "url" = Ok u) good urls ->
     getitem bad "url" = Err e ->
     calls_of (run_from o n (NYT.print_urls response_json)) = map PyPrint urls /\
     result_of (run_from o n (NYT.print_urls response_json)) = Err e).
Proof.
  unfold NYT.print_urls; rewrite Hresults; cbn [lift bind].
  rewrite Hitems; cbn [lift bind].
  split.
  - intros urls Hall.
    rewrite run_from_bind.
    destruct (print_urls_loop o [] Hall n) as [us Hus].
    rewrite app_nil_r in Hus; rewrite Hus.
    cbn [for_each run_from run]; unfold calls_of, result_of, log_of; cbn [fst snd].
    rewrite !app_nil_r, map_map; split; reflexivity.
  - intros good bad rest urls e -> Hgood Hbad.
    rewrite run_from_bind.
    destruct (print_urls_loop o (bad :: rest) Hgood n) as [us Hus].
    rewrite Hus.
    cbn [for_each]; rewrite Hbad; cbn [lift bind run_from run].
    unfold calls_of, result_of, log_of; cbn [fst snd].
    rewrite !app_nil_r, map_map; split; reflexivity.
Qed.

Lemma urls_printed_until_missing_witness :
  calls_of (run_script calm (NYT.print_urls listing_missing_url)) =
    [PyPrint (PStr "https://www.nytimes.com/a.html")] /\
  result_of (run_script calm (NYT.print_urls listing_missing_url)) =
    Err (KeyError "url").
Proof.
  refine (proj2
    (@urls_printed_until_missing calm 0%nat listing_missing_url _ _ _ _)
    [PDict [("url", PStr "https://www.nytimes.com/a.html")]]
    (PDict [("title", PStr "Second")])
    [PDict [("url", PStr "https://www.nytimes.com/c.html")]]
    [PStr "https://www.nytimes.com/a.html"]
    (KeyError "url") _ _ _).
  - reflexivity.
  - reflexivity.
  - reflexivity.
  - repeat constructor.
  - reflexivity.
Defined.

(** ** A listing without a second address *)

(** X5.  The cell that fetches the article sends no request when the
    decoded listing does not give it an address: a dict without
    ["results"] ends it with [KeyError] on that key, a list of results
    with fewer than two elements with [IndexError], and a second result
    without ["url"] with [KeyError] on that key. *)
Theorem no_address_no_request
    (o : script) (n : nat) (fields : list (string * pyval)) :
  let x := run_from o n (NYT.fetch_article (PDict fields)) in
  (lookup "results" fields = None ->
   observed x = ([], Err (KeyError "results"))) /\
  (forall items,
     lookup "results" fields = Some (PList items) ->
     (List.length items < 2)%nat ->
     observed x = ([], Err (IndexError "list index out of range"))) /\
  (forall items second,
     lookup "results" fields = Some (PList items) ->
     nth_error items 1 = Some (PDict second) ->
     lookup "url" second = None ->
     observed x = ([], Err (KeyError "url"))).
Proof.
  assert (Hdict : forall fs k,
             getitem (PDict fs) k =
             match lookup k fs with
             | Some v => Ok v
             | None => Err (KeyError k)
             end) by reflexivity.
  intro x; subst x; unfold NYT.fetch_article; rewrite Hdict.
  split; [| split].
  - intros Hnone; rewrite Hnone; reflexivity.
  - intros items Hsome Hlen; rewrite Hsome; cbn [lift bind].
    rewrite getindex_nonneg by lia; change (Z.to_nat 1) with 1%nat.
    assert (Hnone : nth_error items 1 = None) by (apply nth_error_None; lia).
    rewrite Hnone; reflexivity.
  - intros items second Hsome Hsecond Hurl; rewrite Hsome; cbn [lift bind].
    rewrite getindex_nonneg by lia; change (Z.to_nat 1) with 1%nat.
    rewrite Hsecond; cbn [lift bind]; rewrite Hdict, Hurl.
    reflexivity.
Qed.

Lemma no_address_no_request_witness :
  observed (run_from calm 0 (NYT.fetch_article listing_missing_url)) =
  ([], Err (KeyError "url")).
Proof.
  refine (proj2 (proj2
    (@no_address_no_request calm 0%nat
       [("results",
         PList [PDict [("url", PStr "https://www.nytimes.com/a.html")];
                PDict [("title", PStr "Second")];
                PDict [("url", PStr "https://www.nytimes.com/c.html")]])]))
    _ [("title", PStr "Second")] _ _ _);
    reflexivity.
Defined.

(** ** A page without a body section *)

(** X6.  The cell that takes the text of the article searches the
    document once.  When some tag matches, [get_text] is called on that
    very tag and its answer is the text the cell leaves; when none
    matches, [get_text] is not called and the cell ends with
    [AttributeError]. *)
Theorem body_section_sought_once (o : script) (n : nat) (soup : soup) :
  let find := SoupFind soup "section" [("name", "articleBody")] in
  let x := run_from o n (NYT.article_text soup) in
  match o n find with
  | Ok (Some t) =>
      calls_of x = [find; TagGetText t] /\
      match o (S n) (TagGetText t) with
      | Ok text => result_of x = Ok (Some t, text)
      | Err e => result_of x = Err e
      end
  | Ok None =>
      calls_of x = [find] /\
      result_of x =
        Err (AttributeError "'NoneType' object has no attribute 'get_text'")
  | Err e => calls_of x = [find] /\ result_of x = Err e
  end.
Proof.
  intros find x; subst find x.
  unfold run_from, calls_of, result_of, log_of, NYT.article_text.
  cbn; unfold play; cbn.
  destruct (o n (SoupFind soup "section" [("name", "articleBody")]))
    as [[t |] | e]; cbn; try (split; reflexivity).
  unfold play; cbn.
  destruct (o (S n) (TagGetText t)) as [text | e]; cbn; split; reflexivity.
Qed.

(** ** The status of a response *)

Lemma raised_without_status (ev : event) (r1 r2 : answer ev) :
  without_status ev r1 = without_status ev r2 -> raised ev r1 = raised ev r2.
Proof.
  destruct ev; simpl; try (intros ->; reflexivity).
  destruct r1, r2; simpl; intro H; congruence.
Qed.

Lemma alike_run (A B : Type) (R : A -> B -> Prop)
    (c1 : cellM A) (c2 : cellM B) (o1 o2 : script) :
  alike R c1 c2 ->
  same_but_status o1 o2 ->
  forall n : nat,
    log_of (run_from o1 n c1) = log_of (run_from o2 n c2) /\
    world_of (run_from o1 n c1) = world_of (run_from o2 n c2) /\
    agree R (result_of (run_from o1 n c1)) (result_of (run_from o2 n c2)).
Proof.
  intros Hc Hsame; induction Hc as [a b Hab | e | ev k1 k2 _ IH]; intro n.
  - repeat split; exact Hab.
  - repeat split.
  - specialize (IH (o1 n ev) (o2 n ev) (Hsame n ev) (S n)).
    pose proof (raised_without_status ev _ _ (Hsame n ev)) as Hr.
    unfold run_from, log_of, world_of, result_of in *; simpl.
    change (play o1 ev n) with (o1 n ev, S n).
    change (play o2 ev n) with (o2 n ev, S n).
    destruct (run (play o1) (k1 (o1 n ev)) (S n)) as [[log1 res1] w1].
    destruct (run (play o2) (k2 (o2 n ev)) (S n)) as [[log2 res2] w2].
    simpl in *; destruct IH as [Hlog [Hw Hres]].
    rewrite Hr, Hlog; repeat split; assumption.
Qed.

Lemma alike_bind (A B A' B' : Type) (R : A -> B -> Prop) (S : A' -> B' -> Prop)
    (c1 : cellM A) (c2 : cellM B) (f : A -> cellM A') (g : B -> cellM B') :
  alike R c1 c2 ->
  (forall a b, R a b -> alike S (f a) (g b)) ->
  alike S (bind c1 f) (bind c2 g).
Proof.
  intros Hc Hfg; induction Hc as [a b Hab | e | ev k1 k2 _ IH]; simpl.
  - apply Hfg; exact Hab.
  - constructor.
  - constructor; intros r1 r2 Hr; apply IH; exact Hr.
Qed.

Lemma no_request_alike (A : Type) (c : cellM A) :
  no_request c -> alike eq c c.
Proof.
  induction c as [a | e | ev k IH]; intro Hc.
  - constructor; reflexivity.
  - constructor.
  - constructor; intros r1 r2 Hr.
    destruct ev; simpl in Hc, Hr; try contradiction; subst r2; apply IH, Hc.
Qed.

Lemma no_request_bind (A B : Type) (c : cellM A) (f : A -> cellM B) :
  no_request c -> (forall a, no_request (f a)) -> no_request (bind c f).
Proof.
  intros Hc Hf; induction c as [a | e | ev k IH]; simpl.
  - apply Hf.
  - exact I.
  - destruct ev; simpl in Hc; try contradiction; intro r; apply IH, Hc.
Qed.

Lemma no_request_lift (A : Type) (r : result A) : no_request (lift r).
Proof. destruct r; exact I. Qed.

Lemma print_urls_no_request (response_json : pyval) :
  no_request (NYT.print_urls response_json).
Proof.
  unfold NYT.print_urls.
  apply no_request_bind; [apply no_request_lift | intro results].
  apply no_request_bind; [apply no_request_lift | intro items].
  apply no_request_bind; [| intros us; exact I].
  induction items as [| r rest IH]; [exact I |].
  cbn [for_each].
  apply no_request_bind.
  - apply no_request_bind; [apply no_request_lift | intros u r'; exact I].
  - intro u; apply no_request_bind; [exact IH | intros us; exact I].
Qed.

Lemma parse_no_request (response : response) : no_request (NYT.parse response).
Proof.
  intros [doc | e]; cbn; [| exact I].
  intros [pretty | e]; cbn; [| exact I].
  intros []; exact I.
Qed.

Lemma article_text_no_request (soup : soup) :
  no_request (NYT.article_text soup).
Proof.
  intros [[t |] | e]; cbn; try exact I.
  intros [text | e]; exact I.
Qed.

Lemma parse_reads_content (r1 r2 : response) :
  content r1 = content r2 -> NYT.parse r1 = NYT.parse r2.
Proof. unfold NYT.parse; intros ->; reflexivity. Qed.

Lemma request_alike (k : string) :
  alike (fun x y : string * response * pyval => snd x = snd y)
        (NYT.request k) (NYT.request k).
Proof.
  unfold NYT.request, NYT.requests_get, NYT.json_loads; cbn -[append].
  constructor; intros [resp1 | e1] [resp2 | e2] Hr; simpl in Hr;
    try discriminate.
  - injection Hr as Hcontent; cbn -[append]; rewrite Hcontent.
    constructor; intros rj1 rj2 Hj; simpl in Hj; subst rj2.
    destruct rj1 as [j | e]; cbn -[append]; constructor; reflexivity.
  - injection Hr as <-; cbn -[append]; constructor.
Qed.

Lemma fetch_article_alike (response_json : pyval) :
  alike (fun x y : pyval * response => content (snd x) = content (snd y))
        (NYT.fetch_article response_json) (NYT.fetch_article response_json).
Proof.
  unfold NYT.fetch_article, NYT.requests_get.
  destruct (getitem response_json "results") as [results | e];
    cbn [lift bind]; [| constructor].
  destruct (getindex results 1) as [second | e]; cbn [lift bind]; [| constructor].
  destruct (getitem second "url") as [url | e]; cbn [lift bind]; [| constructor].
  cbn; constructor; intros [resp1 | e1] [resp2 | e2] Hr; simpl in Hr;
    try discriminate.
  - injection Hr as Hcontent; cbn; constructor; exact Hcontent.
  - injection Hr as <-; cbn; constructor.
Qed.

Lemma scrape_alike (k : string) : alike eq (scrape k) (scrape k).
Proof.
  unfold scrape.
  eapply alike_bind; [apply request_alike |].
  intros [[u1 resp1] j1] [[u2 resp2] j2] Hj; simpl in Hj; subst j2.
  eapply alike_bind;
    [apply no_request_alike, print_urls_no_request | intros _ _ _].
  eapply alike_bind; [apply fetch_article_alike |].
  intros [url1 r1] [url2 r2] Hcontent; simpl in Hcontent.
  rewrite (parse_reads_content r1 r2 Hcontent).
  eapply alike_bind; [apply no_request_alike, parse_no_request |].
  intros doc ? <-.
  eapply alike_bind; [apply no_request_alike, article_text_no_request |].
  intros [article text] ? <-; constructor; reflexivity.
Qed.

(** X7.  From the listing request to the text of the article, the
    notebook never looks at the status of a response: in two worlds that
    answer alike but for the status codes of the responses, the cells
    issue the same calls and end in the same way, with the same text or
    the same exception. *)
Theorem status_never_read (o1 o2 : script) (k : string)
    (Hsame : same_but_status o1 o2) :
  observed (run_script o1 (scrape k)) = observed (run_script o2 (scrape k)).
Proof.
  destruct (alike_run (scrape_alike k) Hsame 0) as [Hlog [_ Hres]].
  unfold run_script, observed, log_of, result_of in *.
  destruct (run_from o1 0 (scrape k)) as [[log1 res1] w1].
  destruct (run_from o2 0 (scrape k)) as [[log2 res2] w2].
  simpl in *; subst log2.
  destruct res1, res2; simpl in Hres; try contradiction; subst; reflexivity.
Qed.

Lemma status_never_read_witness :
  result_of (run_script (newsroom 404) (scrape "0123456789abcdef")) =
  result_of (run_script (newsroom 200) (scrape "0123456789abcdef")).
Proof.
  assert (Hsame : same_but_status (newsroom 404) (newsroom 200))
    by (intros n ev; destruct ev; reflexivity).
  exact (f_equal snd (status_never_read "0123456789abcdef" Hsame)).
Defined.

(** ** From the output of the analysis to [entities] *)

Lemma append_empty (s : string) : s ++ "" = s.
Proof.
  induction s as [| c s IH]; simpl; [reflexivity | rewrite IH; reflexivity].
Qed.

Lemma split_one_line (s rest piece : string) :
  one_line s = true ->
  split_lines (s ++ rest) piece = split_lines rest (piece ++ s).
Proof.
  revert piece; induction s as [| c s IH]; intros piece Hs; simpl in *.
  - rewrite append_empty; reflexivity.
  - apply andb_true_iff in Hs; destruct Hs as [Hc Hs].
    apply negb_true_iff in Hc; rewrite Hc, (IH _ Hs), append_assoc.
    reflexivity.
Qed.

Lemma split_join (x : string) (rest : list string) (piece : string) :
  one_line x = true ->
  Forall (fun l => one_line l = true) rest ->
  split_lines (join NYT.newline (x :: rest)) piece = (piece ++ x) :: rest.
Proof.
  revert x piece; induction rest as [| y rest IH]; intros x piece Hx Hrest.
  - unfold join; simpl.
    rewrite <- (append_empty x) at 1.
    rewrite (split_one_line x "" piece Hx); reflexivity.
  - inversion Hrest as [| y' rest' Hy Hrest']; subst.
    change (join NYT.newline (x :: y :: rest))
      with (x ++ NYT.newline ++ join NYT.newline (y :: rest)).
    rewrite (split_one_line x _ piece Hx).
    change (NYT.newline ++ join NYT.newline (y :: rest))
      with (String (ascii_of_nat 10) (join NYT.newline (y :: rest))).
    cbn [split_lines]; rewrite Ascii.eqb_refl.
    rewrite (IH y "" Hy Hrest'); reflexivity.
Qed.

(** X8.  The three cells after the analysis command hand to [json.loads]
    the lines of its output joined by newlines, the same text that they
    print, and leave as [entities] what the decoded value holds under
    ["entities"].  When the command printed at least one line, splitting
    that text at the newlines gives the lines back. *)
Theorem analysis_text_is_the_output
    (o : script) (n : nat) (cloud_nyt_text_filename : string) :
  let command := "gcloud ml language analyze-entities --content-file="
                 ++ cloud_nyt_text_filename in
  let analysis_lines := snd (o n (Exec command)) in
  let analysis := join NYT.newline analysis_lines in
  let x := run_from o n (decode_analysis cloud_nyt_text_filename) in
  calls_of x = [Exec command; PyPrint (PStr analysis); JsonLoads analysis] /\
  result_of x =
    match o (S (S n)) (JsonLoads analysis) with
    | Ok analysis_json => getitem analysis_json "entities"
    | Err e => Err e
    end /\
  (analysis_lines <> [] ->
   Forall (fun l => one_line l = true) analysis_lines ->
   split_lines analysis "" = analysis_lines).
Proof.
  intros command analysis_lines analysis x.
  subst x analysis analysis_lines command.
  unfold run_from, calls_of, result_of, log_of, decode_analysis,
    NYT.analysis_lines, NYT.analysis, NYT.entities, NYT.json_loads, getoutput.
  cbn -[append join getitem]; unfold play; cbn -[append join getitem].
  set (command := "gcloud ml language analyze-entities --content-file="
                  ++ cloud_nyt_text_filename).
  set (text := join NYT.newline (snd (o n (Exec command)))).
  split; [| split].
  - destruct (o (S (S n)) (JsonLoads text)) as [j | e]; cbn -[append join getitem];
      [destruct (getitem j "entities") |]; reflexivity.
  - destruct (o (S (S n)) (JsonLoads text)) as [j | e]; cbn -[append join getitem];
      [destruct (getitem j "entities") |]; reflexivity.
  - intros Hne Hlines; subst text.
    destruct (snd (o n (Exec command))) as [| first rest]; [contradiction |].
    inversion Hlines as [| ? ? Hfirst Hrest]; subst.
    apply (@split_join first rest "" Hfirst Hrest).
Qed.

Lemma analysis_text_is_the_output_witness :
  split_lines
    (join NYT.newline
       (snd (printing ["{"; "  entities: []"; "}"] 0%nat
               (Exec ("gcloud ml language analyze-entities --content-file="
                      ++ "gs://amli-tutorial-ml-entity-analysis/nyt.txt")))))
    "" =
  ["{"; "  entities: []"; "}"].
Proof.
  refine (proj2 (proj2
    (@analysis_text_is_the_output
       (printing ["{"; "  entities: []"; "}"]) 0%nat
       "gs://amli-tutorial-ml-entity-analysis/nyt.txt")) _ _).
  - discriminate.
  - repeat constructor.
Defined.

(** ** Comprehensions over the analysis *)

Lemma traverse_first_error (A B : Type) (f : A -> result B)
    (good : list A) (ys : list B) (bad : A) (rest : list A) (e : exn) :
  Forall2 (fun x y => f x = Ok y) good ys ->
  f bad = Err e ->
  traverse f (good ++ bad :: rest) = Err e.
Proof.
  intros Hgood Hbad; induction Hgood as [| x y good ys Hx _ IH]; simpl.
  - rewrite Hbad; reflexivity.
  - rewrite Hx, IH; reflexivity.
Qed.

(** X9.  A comprehension over the analysis ends with the exception of the
    first element whose subscript fails, whatever comes after it: the
    first entity without a usable ["mentions"] for [mentions_lists], the
    first mention without a usable ["text"] for [texts], the first
    element that cannot be iterated for [mentions]. *)
Theorem comprehension_stops_at_first_failure
    (good : list pyval) (found : list pyval)
    (bad : pyval) (rest : list pyval) (e : exn) :
  (Forall2 (fun entity ms => getitem entity "mentions" = Ok ms) good found ->
   getitem bad "mentions" = Err e ->
   NYT.mentions_lists (PList (good ++ bad :: rest)) = Raise e) /\
  (Forall2 (fun mention t => getitem mention "text" = Ok t) good found ->
   getitem bad "text" = Err e ->
   NYT.texts (good ++ bad :: rest) = Raise e) /\
  (forall lists : list (list pyval),
   Forall2 (fun mentions_list ms => iter mentions_list = Ok ms) good lists ->
   iter bad = Err e ->
   NYT.mentions (good ++ bad :: rest) = Raise e).
Proof.
  split; [| split].
  - intros Hgood Hbad; unfold NYT.mentions_lists; cbn [iter lift bind].
    rewrite for_each_lift.
    rewrite (@traverse_first_error _ _ _ good found bad rest e Hgood Hbad).
    reflexivity.
  - intros Hgood Hbad; unfold NYT.texts.
    rewrite for_each_lift.
    rewrite (@traverse_first_error _ _ _ good found bad rest e Hgood Hbad).
    reflexivity.
  - intros lists Hgood Hbad; unfold NYT.mentions.
    rewrite for_each_lift.
    rewrite (@traverse_first_error _ _ _ good lists bad rest e Hgood Hbad).
    reflexivity.
Qed.

Lemma comprehension_stops_at_first_failure_witness :
  NYT.texts [span 0 "Google"; PStr "Mountain View"; PNone] =
  Raise (TypeError "string indices must be integers").
Proof.
  refine (proj1 (proj2
    (@comprehension_stops_at_first_failure
       [span 0 "Google"]
       [PDict [("beginOffset", PInt 0); ("content", PStr "Google")]]
       (PStr "Mountain View") [PNone]
       (TypeError "string indices must be integers"))) _ _).
  - repeat constructor.
  - reflexivity.
Defined.

(** ** From [entities] to the listing *)

Lemma unique_listing_strings (rs : list Pandas.record) (strs : list string) :
  Forall2 (fun r s => lookup "content" r = Some (PStr s)) rs strs ->
  unique_listing rs =
  match strs with
  | [] => Raise (KeyError "content")
  | _ :: _ => Ret (map (fun s => Pandas.Obj (PStr s)) (first_occurrences strs))
  end.
Proof.
  intro Hall; rewrite unique_listing_unfold.
  destruct Hall as [| r s rs strs Hr Hrest]; [reflexivity |].
  assert (Hex : Exists has_content (r :: rs))
    by (left; unfold has_content; rewrite Hr; discriminate).
  apply content_column_exists in Hex; rewrite Hex.
  assert (Hcolumn : map (Pandas.at_label "content") (r :: rs) =
                    map (fun s => Pandas.Obj (PStr s)) (s :: strs)).
  { simpl; unfold Pandas.at_label at 1; rewrite Hr; f_equal.
    clear - Hrest; induction Hrest as [| r s rs strs Hr _ IH]; simpl.
    - reflexivity.
    - unfold Pandas.at_label at 1; rewrite Hr, IH; reflexivity. }
  rewrite Hcolumn; unfold Pandas.unique.
  assert (Hhash : forallb Pandas.hashable
                    (map (fun s => Pandas.Obj (PStr s)) (s :: strs)) = true).
  { apply forallb_forall; intros c Hc.
    apply in_map_iff in Hc; destruct Hc as [s' [<- _]]; reflexivity. }
  rewrite Hhash; cbn [lift]; f_equal.
  apply (distinct_map (fun s => Pandas.Obj (PStr s)) String.eqb Pandas.same
           (fun x y => eq_refl) [] (s :: strs)).
Qed.

(** X10.  For an analysis of the documented shape (every entity holds a
    list under ["mentions"], every mention a dict under ["text"], every
    such dict a string under ["content"]), the cells from
    [mentions_lists] to the last one list the contents of all mentions,
    entity after entity, each content once at its first occurrence.
    When no entity has any mention, the last cell ends with [KeyError]
    on ["content"]. *)
Theorem contents_listed_end_to_end
    (es : list pyval) (mls : list (list pyval))
    (rs : list Pandas.record) (strs : list string)
    (Hmentions : Forall2 (fun e ms => getitem e "mentions" = Ok (PList ms)) es mls)
    (Htexts : Forall2 (fun m r => getitem m "text" = Ok (PDict r))
                      (List.concat mls) rs)
    (Hcontents : Forall2 (fun r s => lookup "content" r = Some (PStr s)) rs strs) :
  NYT.mentions_lists (PList es) = Ret (map PList mls) /\
  NYT.mentions (map PList mls) = Ret (List.concat mls) /\
  NYT.texts (List.concat mls) = Ret (map PDict rs) /\
  unique_listing rs =
    match strs with
    | [] => Raise (KeyError "content")
    | _ :: _ => Ret (map (fun s => Pandas.Obj (PStr s)) (first_occurrences strs))
    end /\
  (strs = [] <-> Forall (fun ms => ms = []) mls).
Proof.
  split; [| split; [| split; [| split]]].
  - unfold NYT.mentions_lists; cbn [iter lift bind]; rewrite for_each_lift.
    apply lift_ret, traverse_ok.
    clear - Hmentions; induction Hmentions; simpl; constructor; assumption.
  - unfold NYT.mentions; rewrite for_each_lift.
    assert (H : traverse iter (map PList mls) = Ok mls).
    { apply traverse_ok.
      clear; induction mls; simpl; constructor; [reflexivity | assumption]. }
    rewrite H; reflexivity.
  - unfold NYT.texts; rewrite for_each_lift.
    apply lift_ret, traverse_ok.
    clear - Htexts; induction Htexts; simpl; constructor; assumption.
  - apply unique_listing_strings; exact Hcontents.
  - assert (Hlen : List.length strs = List.length (List.concat mls)).
    { rewrite <- (Forall2_length Hcontents), <- (Forall2_length Htexts).
      reflexivity. }
    split.
    + intros ->; simpl in Hlen.
      clear - Hlen; induction mls as [| ms mls IH]; [constructor |].
      simpl in Hlen; rewrite List.length_app in Hlen.
      constructor; [destruct ms; [reflexivity | simpl in Hlen; lia] |].
      apply IH; lia.
    + intro Hempty.
      assert (Hconcat : List.concat mls = []).
      { clear - Hempty; induction Hempty as [| ms mls -> _ IH];
          [reflexivity | simpl; exact IH]. }
      rewrite Hconcat in Hlen; destruct strs; [reflexivity | discriminate].
Qed.

Lemma contents_listed_end_to_end_witness :
  unique_listing sample_texts =
  Ret [Pandas.Obj (PStr "Google"); Pandas.Obj (PStr "Mountain View")].
Proof.
  refine (proj1 (proj2 (proj2 (proj2
    (@contents_listed_end_to_end sample_entities sample_mentions sample_texts
       ["Google"; "Mountain View"; "Mountain View"] _ _ _))))).
  - repeat constructor.
  - repeat constructor.
  - repeat constructor.
Defined.

(** ** What can stop the two command line notebooks *)

Lemma shared_bucket_run (o : script) (n : nat) :
  run_from o n Storage.shared_bucket =
  let buckets := snd (o n (Exec "gsutil ls")) in
  if Storage.contains buckets Storage.bucket
  then ([(Exec "gsutil ls", None); (Exec "gsutil ls", None)],
        Ok (Storage.bucket, buckets), S (S n))
  else ([(Exec "gsutil ls", None);
         (Exec "gsutil mb gs://amli-cloud-tutorial-bucket/", None);
         (Exec "gsutil ls", None)],
        Ok (Storage.bucket, buckets), S (S (S n))).
Proof.
  unfold run_from, Storage.shared_bucket, getoutput, system, sh_cmd.
  cbn -[Storage.contains Storage.bucket]; unfold play;
    cbn -[Storage.contains Storage.bucket].
  destruct (Storage.contains (snd (o n (Exec "gsutil ls"))) Storage.bucket);
    reflexivity.
Qed.

(** X11.  No cell of the two notebooks that drive the command line tools
    ends with an exception because a command failed: whatever the exit
    statuses and the outputs, the only cell that can end with an exception
    is the one that lists the notebooks, and only with the exception of
    [os.listdir], before anything is printed. *)
Theorem only_listdir_can_stop
    (pn bn b : string) (c : cell) (o : script) (n : nat) (e : exn)
    (Hcell : In c (cli_cells pn bn b))
    (Hstopped : result_of (run_from o n (cell_body c)) = Err e) :
  o n (ListDir ".") = Err e /\
  calls_of (run_from o n (cell_body c)) = [ListDir "."].
Proof.
  unfold cli_cells, GCloud.walkthrough, Storage.walkthrough in Hcell.
  cbn [app In] in Hcell.
  repeat (destruct Hcell as [<- | Hcell];
          [cbn [cell_body] in *;
           try (rewrite check_installed_ok in Hstopped; discriminate);
           try (rewrite check_authorized_ok in Hstopped; discriminate);
           try (rewrite setup_ok in Hstopped; discriminate);
           try (rewrite shared_bucket_run in Hstopped; cbv zeta in Hstopped;
                destruct (Storage.contains _ _); discriminate);
           try discriminate |]);
    try contradiction.
  rewrite notebooks_run in *.
  destruct (o n (ListDir ".")) as [names | e']; [discriminate |].
  injection Hstopped as <-; split; reflexivity.
Qed.

Lemma only_listdir_can_stop_witness :
  calls_of (run_from unreadable 0 Storage.notebooks) = [ListDir "."].
Proof.
  refine (proj2
    (@only_listdir_can_stop "p" "gs://b/" "gs://c/" (Cell Storage.notebooks)
       unreadable 0%nat (Exn "PermissionError" "Permission denied") _ _)).
  - unfold cli_cells, GCloud.walkthrough, Storage.walkthrough; cbn [app In].
    do 26 right; left; reflexivity.
  - reflexivity.
Defined.

(** ** The bucket for later work, to the end of the notebook *)

(** X12.  From the cell that makes the bucket for later work to the end
    of the storage notebook: when the directory can be read, the run ends
    with the copy into that bucket, the removal of the copies and the
    recursive removal of the bucket itself, in that order, whether or not
    the bucket was listed before the notebook made it; when the directory
    cannot be read, the run stops there, and nothing has been copied or
    removed. *)
Theorem shared_bucket_removed_at_the_end (o : script) (n : nat) :
  let x := run_from o n files_lifecycle in
  match result_of x with
  | Ok notebooks =>
      exists before,
        calls_of x =
        (before ++
         [Exec "gsutil cp *.ipynb gs://amli-cloud-tutorial-bucket/";
          Exec "gsutil ls gs://amli-cloud-tutorial-bucket/";
          Exec "gsutil rm gs://amli-cloud-tutorial-bucket/*.ipynb";
          Exec "gsutil ls gs://amli-cloud-tutorial-bucket/";
          Exec "gsutil rm -r gs://amli-cloud-tutorial-bucket/"])%list
  | Err e =>
      forall argv, In (Exec argv) (calls_of x) ->
        argv = "gsutil ls" \/
        argv = "gsutil mb gs://amli-cloud-tutorial-bucket/" \/
        argv = "gsutil help cp"
  end.
Proof.
  intro x; subst x; unfold files_lifecycle.
  rewrite run_from_bind, shared_bucket_run; cbv zeta.
  set (buckets := snd (o n (Exec "gsutil ls"))).
  assert (Hrest : forall (m : nat) (head : list io),
    (forall argv, In (Exec argv) (map fst head) ->
       argv = "gsutil ls" \/
       argv = "gsutil mb gs://amli-cloud-tutorial-bucket/" \/
       argv = "gsutil help cp") ->
    let y := run_from o m
               (Storage.gsutil_help_cp ;;
                notebooks <- Storage.notebooks ;;
                Storage.cp_notebooks Storage.bucket ;;
                Storage.ls_bucket Storage.bucket ;;
                Storage.rm_notebooks Storage.bucket ;;
                Storage.ls_bucket Storage.bucket ;;
                Storage.rm_bucket Storage.bucket ;;
                Ret notebooks) in
    match snd (fst y) with
    | Ok notebooks =>
        exists before,
          map fst (head ++ fst (fst y))%list =
          (before ++
           [Exec "gsutil cp *.ipynb gs://amli-cloud-tutorial-bucket/";
            Exec "gsutil ls gs://amli-cloud-tutorial-bucket/";
            Exec "gsutil rm gs://amli-cloud-tutorial-bucket/*.ipynb";
            Exec "gsutil ls gs://amli-cloud-tutorial-bucket/";
            Exec "gsutil rm -r gs://amli-cloud-tutorial-bucket/"])%list
    | Err e =>
        forall argv, In (Exec argv) (map fst (head ++ fst (fst y))%list) ->
          argv = "gsutil ls" \/
          argv = "gsutil mb gs://amli-cloud-tutorial-bucket/" \/
          argv = "gsutil help cp"
    end).
  { intros m head Hhead y; subst y.
    rewrite run_from_bind.
    change (run_from o m Storage.gsutil_help_cp)
      with ([(Exec "gsutil help cp", @None exn)], Ok tt, S m).
    cbv iota beta.
    rewrite run_from_bind, notebooks_run.
    destruct (o (S m) (ListDir ".")) as [names | e]; cbv zeta iota beta.
    - set (found := filter (fun nb => endswith nb ".ipynb") names).
      assert (Htail : forall k,
        run_from o k
          (Storage.cp_notebooks Storage.bucket ;;
           Storage.ls_bucket Storage.bucket ;;
           Storage.rm_notebooks Storage.bucket ;;
           Storage.ls_bucket Storage.bucket ;;
           Storage.rm_bucket Storage.bucket ;; Ret found) =
        ([(Exec "gsutil cp *.ipynb gs://amli-cloud-tutorial-bucket/", None);
          (Exec "gsutil ls gs://amli-cloud-tutorial-bucket/", None);
          (Exec "gsutil rm gs://amli-cloud-tutorial-bucket/*.ipynb", None);
          (Exec "gsutil ls gs://amli-cloud-tutorial-bucket/", None);
          (Exec "gsutil rm -r gs://amli-cloud-tutorial-bucket/", None)],
         Ok found, S (S (S (S (S k)))))) by reflexivity.
      rewrite Htail; cbn [fst snd].
      eexists (map fst head ++ Exec "gsutil help cp" :: ListDir "." ::
               map fst (map (fun nb => (PyPrint (PStr ("- " ++ nb)), @None exn))
                            found))%list.
      rewrite !map_app; cbn [map fst app].
      rewrite <- !app_assoc; reflexivity.
    - cbn [fst snd]; intros argv Hin.
      rewrite map_app in Hin; apply in_app_or in Hin.
      destruct Hin as [Hin | Hin]; [apply Hhead; exact Hin |].
      cbn in Hin; destruct Hin as [Hin | [Hin | []]]; [| discriminate].
      injection Hin as <-; right; right; reflexivity. }
  destruct (Storage.contains buckets Storage.bucket); cbv iota beta.
  - specialize (Hrest (S (S n))
                  [(Exec "gsutil ls", None); (Exec "gsutil ls", None)]).
    cbv zeta in Hrest.
    match type of Hrest with
    | _ -> match snd (fst ?r) with _ => _ end => destruct r as [[log res] m]
    end.
    cbn [fst snd] in Hrest; unfold result_of, calls_of, log_of; cbn [fst snd].
    apply Hrest.
    intros argv [H | [H | []]]; injection H as <-; left; reflexivity.
  - specialize (Hrest (S (S (S n)))
                  [(Exec "gsutil ls", None);
                   (Exec "gsutil mb gs://amli-cloud-tutorial-bucket/", None);
                   (Exec "gsutil ls", None)]).
    cbv zeta in Hrest.
    match type of Hrest with
    | _ -> match snd (fst ?r) with _ => _ end => destruct r as [[log res] m]
    end.
    cbn [fst snd] in Hrest; unfold result_of, calls_of, log_of; cbn [fst snd].
    apply Hrest.
    intros argv [H | [H | [H | []]]]; injection H as <-;
      [left | right; left | left]; reflexivity.
Qed.

Lemma shared_bucket_removed_at_the_end_witness :
  exists before,
    calls_of (run_from (holding ["Storage.ipynb"; "nyt.txt"]) 0 files_lifecycle) =
    (before ++
     [Exec "gsutil cp *.ipynb gs://amli-cloud-tutorial-bucket/";
      Exec "gsutil ls gs://amli-cloud-tutorial-bucket/";
      Exec "gsutil rm gs://amli-cloud-tutorial-bucket/*.ipynb";
      Exec "gsutil ls gs://amli-cloud-tutorial-bucket/";
      Exec "gsutil rm -r gs://amli-cloud-tutorial-bucket/"])%list.
Proof.
  exact (shared_bucket_removed_at_the_end
           (holding ["Storage.ipynb"; "nyt.txt"]) 0).
Defined.

(** ** The version check *)

Lemma first_digit_of_prefix (c : ascii) (s rest : string) :
  TensorFlow.uses_compat_v1 (String c s ++ rest) =
  TensorFlow.uses_compat_v1 (String c s).
Proof. reflexivity. Qed.

(** X13.  The version check of the TensorFlow notebook reads one
    character.  For a version that starts with the major number [m], up to
    99, it chooses [tensorflow.compat.v1] exactly when the first digit of
    [m] is above 1: for 2 to 9 and from 20 on, but for none of 10 to 19,
    which it takes for 1; what follows the first character never counts.
    An empty version ends the check with [IndexError], and a first
    character that is no digit with [ValueError]. *)
Theorem version_check_reads_one_digit :
  (forall (m : Z) (rest : string),
     0 <= m < 100 ->
     TensorFlow.uses_compat_v1 (str m ++ rest) =
     Ok ((2 <=? m) && (m <=? 9) || (20 <=? m))) /\
  (forall (c : ascii) (rest rest' : string),
     TensorFlow.uses_compat_v1 (String c rest) =
     TensorFlow.uses_compat_v1 (String c rest')) /\
  TensorFlow.uses_compat_v1 "" =
    Err (IndexError "string index out of range") /\
  (forall (c : ascii) (rest : string),
     is_digit c = false ->
     TensorFlow.uses_compat_v1 (String c rest) =
     Err (TensorFlow.ValueError "invalid literal for int() with base 10")).
Proof.
  split; [| split; [| split]].
  - intros m rest Hm.
    assert (Hnat : exists k : nat, (k < 100)%nat /\ m = Z.of_nat k)
      by (exists (Z.to_nat m); lia).
    destruct Hnat as [k [Hk ->]].
    do 100 (destruct k as [| k]; [reflexivity |]).
    lia.
  - reflexivity.
  - reflexivity.
  - intros c rest Hc; unfold is_digit in Hc.
    unfold TensorFlow.uses_compat_v1, TensorFlow.first_digit.
    rewrite Hc; reflexivity.
Qed.

Lemma version_check_reads_one_digit_witness :
  TensorFlow.uses_compat_v1 "10.0.1" = Ok false /\
  TensorFlow.uses_compat_v1 "2.1.0" = Ok true.
Proof.
  split.
  - refine (proj1 version_check_reads_one_digit 10 ".0.1" _); lia.
  - refine (proj1 version_check_reads_one_digit 2 ".1.0" _); lia.
Defined.

(** ** Making and removing a bucket, in a storage account *)

(** X14.  In any world where listing and drawing leave the buckets as
    they are, [gsutil mb] adds the bucket it names and [gsutil rb] takes
    away the bucket it names: after the cells from the draw of the bucket
    name to the listing after its removal, the account holds every bucket
    it held before except the one of the generated name, and no other.
    The generated bucket never outlives these cells; a bucket that already
    had that name is removed with it. *)
Theorem generated_bucket_does_not_outlive
    (W : Type) (handle : forall ev : event, W -> answer ev * W)
    (buckets : W -> list string) (w : W)
    (Hls : forall w', buckets (snd (handle (Exec "gsutil ls") w')) = buckets w')
    (Hdraw : forall k w', buckets (snd (handle (GetRandBits k) w')) = buckets w')
    (Hmb : forall b w' x,
        In x (buckets (snd (handle (Exec ("gsutil mb " ++ b)) w'))) <->
        x = b \/ In x (buckets w'))
    (Hrb : forall b w' x,
        In x (buckets (snd (handle (Exec ("gsutil rb " ++ b)) w'))) <->
        x <> b /\ In x (buckets w')) :
  let name := ("gs://amli-cloud-tutorial-bucket-"
               ++ str (fst (handle (GetRandBits 32) w))) ++ "/" in
  forall x,
    In x (buckets (world_of (run handle bucket_lifecycle w))) <->
    In x (buckets w) /\ x <> name.
Proof.
  intros name x; subst name.
  unfold world_of, bucket_lifecycle, Storage.bucket_name, Storage.gsutil_mb,
    Storage.gsutil_rb, Storage.gsutil_ls, system, sh_cmd.
  cbn -[append str].
  pose proof (Hdraw 32 w) as H1.
  destruct (handle (GetRandBits 32) w) as [d w1]; cbn -[append str] in *.
  set (name := ("gs://amli-cloud-tutorial-bucket-" ++ str d) ++ "/").
  pose proof (Hmb name w1) as H2.
  destruct (handle (Exec ("gsutil mb " ++ name)) w1) as [r2 w2];
    cbn -[append str] in *.
  pose proof (Hls w2) as H3.
  destruct (handle (Exec "gsutil ls") w2) as [r3 w3]; cbn -[append str] in *.
  pose proof (Hrb name w3) as H4.
  destruct (handle (Exec ("gsutil rb " ++ name)) w3) as [r4 w4];
    cbn -[append str] in *.
  pose proof (Hls w4) as H5.
  destruct (handle (Exec "gsutil ls") w4) as [r5 w5]; cbn -[append str] in *.
  rewrite H5, H4, H3, H2, H1.
  split.
  - intros [Hne [Heq | Hin]]; [contradiction | split; assumption].
  - intros [Hin Hne]; split; [exact Hne | right; exact Hin].
Qed.

Lemma in_filter_other (b x : string) (l : list string) :
  In x (filter (fun y => negb (String.eqb y b)) l) <-> x <> b /\ In x l.
Proof.
  rewrite filter_In, negb_true_iff, String.eqb_neq; tauto.
Qed.

Lemma generated_bucket_does_not_outlive_witness :
  ~ In "gs://amli-cloud-tutorial-bucket-7/"
       (world_of (run (account 7) bucket_lifecycle
                    ["gs://kept/"; "gs://amli-cloud-tutorial-bucket-7/"])).
Proof.
  intro Hstays.
  refine (proj2 (proj1
    (@generated_bucket_does_not_outlive _ (account 7) (fun l => l)
       ["gs://kept/"; "gs://amli-cloud-tutorial-bucket-7/"] _ _ _ _
       "gs://amli-cloud-tutorial-bucket-7/") Hstays) eq_refl).
  - intro w'; reflexivity.
  - intros k w'; reflexivity.
  - intros b w' x; cbn.
    change (strip_prefix "" b) with (Some b).
    destruct (Storage.contains w' b) eqn:Hin; cbn.
    + apply contains_In in Hin; split; [intro H; right; exact H |].
      intros [-> | H]; assumption.
    + rewrite in_app_iff; cbn; split.
      * intros [H | [<- | []]]; [right; exact H | left; reflexivity].
      * intros [-> | H]; [right; left; reflexivity | left; exact H].
  - intros b w' x; cbn.
    change (strip_prefix "" b) with (Some b); cbn.
    apply in_filter_other.
Defined.

(** ** Running the cell of the shared bucket again *)

Lemma shared_bucket_world
    (W : Type) (handle : forall ev : event, W -> answer ev * W) (w : W) :
  run handle Storage.shared_bucket w =
  let listing := handle (Exec "gsutil ls") w in
  if Storage.contains (snd (fst listing)) Storage.bucket
  then ([(Exec "gsutil ls", None); (Exec "gsutil ls", None)],
        Ok (Storage.bucket, snd (fst listing)),
        snd (handle (Exec "gsutil ls") (snd listing)))
  else ([(Exec "gsutil ls", None);
         (Exec "gsutil mb gs://amli-cloud-tutorial-bucket/", None);
         (Exec "gsutil ls", None)],
        Ok (Storage.bucket, snd (fst listing)),
        snd (handle (Exec "gsutil ls")
               (snd (handle (Exec "gsutil mb gs://amli-cloud-tutorial-bucket/")
                       (snd listing))))).
Proof.
  unfold Storage.shared_bucket, getoutput, system, sh_cmd.
  cbn -[Storage.contains Storage.bucket].
  destruct (handle (Exec "gsutil ls") w) as [[st lines] w1].
  cbn -[Storage.contains Storage.bucket].
  destruct (Storage.contains lines Storage.bucket); cbn.
  - destruct (handle (Exec "gsutil ls") w1) as [r2 w2]; reflexivity.
  - match goal with
    | |- context [handle (Exec ?argv) w1] =>
        change (Exec argv) with (Exec "gsutil mb gs://amli-cloud-tutorial-bucket/")
    end.
    destruct (handle (Exec "gsutil mb gs://amli-cloud-tutorial-bucket/") w1)
      as [r2 w2]; cbn.
    destruct (handle (Exec "gsutil ls") w2) as [r3 w3]; reflexivity.
Qed.

(** X15.  In any world where [gsutil ls] prints the buckets of the
    account and leaves them as they are, and where the bucket is there
    once [gsutil mb] has been asked for it: after one run of the cell the
    bucket is in the account, and a second run of the cell only lists,
    twice, and leaves the account as the first run left it. *)
Theorem shared_bucket_made_once
    (W : Type) (handle : forall ev : event, W -> answer ev * W)
    (buckets : W -> list string) (w : W)
    (Hlines : forall w', snd (fst (handle (Exec "gsutil ls") w')) = buckets w')
    (Hls : forall w', buckets (snd (handle (Exec "gsutil ls") w')) = buckets w')
    (Hmb : forall w',
        In Storage.bucket
           (buckets (snd (handle
                            (Exec "gsutil mb gs://amli-cloud-tutorial-bucket/")
                            w')))) :
  let first := run handle Storage.shared_bucket w in
  let second := run handle Storage.shared_bucket (world_of first) in
  In Storage.bucket (buckets (world_of first)) /\
  calls_of second = [Exec "gsutil ls"; Exec "gsutil ls"] /\
  buckets (world_of second) = buckets (world_of first).
Proof.
  intros first second.
  assert (Hfirst : In Storage.bucket (buckets (world_of first))).
  { subst first; rewrite shared_bucket_world; cbv zeta.
    destruct (Storage.contains _ Storage.bucket) eqn:Hin;
      unfold world_of; cbn [snd]; rewrite Hls.
    - apply contains_In in Hin; rewrite Hlines in Hin.
      rewrite Hls; exact Hin.
    - apply Hmb. }
  split; [exact Hfirst |].
  subst second; generalize dependent (world_of first); intros w1 Hw1.
  rewrite shared_bucket_world; cbv zeta.
  rewrite <- Hlines in Hw1; apply contains_In in Hw1; rewrite Hw1.
  unfold calls_of, log_of, world_of; cbn [fst snd map].
  split; [reflexivity | rewrite !Hls; reflexivity].
Qed.

Lemma shared_bucket_made_once_witness :
  let first := run gsutil Storage.shared_bucket ["gs://some-other-bucket/"] in
  calls_of (run gsutil Storage.shared_bucket (world_of first)) =
  [Exec "gsutil ls"; Exec "gsutil ls"].
Proof.
  refine (proj1 (proj2
    (@shared_bucket_made_once _ gsutil (fun l => l)
       ["gs://some-other-bucket/"] _ _ _))).
  - intro w'; reflexivity.
  - intro w'; reflexivity.
  - intro w'; cbn.
    destruct (Storage.contains w' "gs://amli-cloud-tutorial-bucket/") eqn:Hin;
      cbn.
    + apply contains_In; exact Hin.
    + apply in_or_app; right; left; reflexivity.
Defined.
